(** * Merged-mining proof verification (auxpow.cpp)

    A shallow embedding of [CAuxPow::check], [CAuxPow::getExpectedIndex],
    [CAuxPow::CheckMerkleBranch] and [CAuxPow::initAuxPow], together with
    the properties the specification states about them.

    Conventions.  A C++ [int] is a [Z] in [-2^31, 2^31); a [uint32_t] is a
    [Z] in [0, 2^32) and every operation on it is reduced modulo [2^32].
    A [uint256] is the list of its 32 bytes in memory order, a [CScript]
    is the list of its bytes.  Iterators into a script are offsets from
    [script.begin()], so [script.end()] is [List.length script]. *)

From Stdlib Require Import ZArith List String Bool Lia Arith.
From Stdlib Require Import Init.Byte Strings.Byte.
From Stdlib Require Import Znumtheory Zpow_facts.
Import ListNotations.
Local Open Scope Z_scope.

(** ** Machine integers *)

Module Int.

Definition modulus : Z := 2 ^ 32.
Definition half_modulus : Z := 2 ^ 31.

(** Conversion to [uint32_t]. *)
Definition u32 (z : Z) : Z := z mod modulus.

(** Conversion of a 32-bit pattern to [int] (two's complement). *)
Definition i32 (z : Z) : Z :=
  let r := z mod modulus in
  if r <? half_modulus then r else r - modulus.

Definition in_i32 (z : Z) : Prop := - half_modulus <= z < half_modulus.

Definition add (a b : Z) : Z := u32 (a + b).
Definition mul (a b : Z) : Z := u32 (a * b).
Definition shl (a n : Z) : Z := u32 (Z.shiftl a n).

End Int.

(** ** Results of a verification

    [check] returns [true], or logs a reason through [error] and returns
    [false].  [Undefined] stands for an execution the C++ standard gives
    no meaning to (indexing an empty vector). *)

Inductive result (A : Type) : Type :=
| Ok (a : A)
| Err (reason : string)
| Undefined.

Arguments Ok {A} a.
Arguments Err {A} reason.
Arguments Undefined {A}.

Definition bind {A B : Type} (r : result A) (k : A -> result B) : result B :=
  match r with
  | Ok a => k a
  | Err reason => Err reason
  | Undefined => Undefined
  end.

(** [if (c) return error (reason);] *)
Definition error_if (c : bool) (reason : string) : result unit :=
  if c then Err reason else Ok tt.

Declare Scope result_scope.
Delimit Scope result_scope with result.
Notation "x <- e ;; k" := (bind e (fun x => k))
  (at level 61, e at next level, right associativity) : result_scope.
Notation "e ;; k" := (bind e (fun _ => k))
  (at level 61, right associativity) : result_scope.
Local Open Scope result_scope.

(** ** Bytes, hashes and scripts *)

Definition uint256 : Type := list byte.
Definition CScript : Type := list byte.

(** [uint256 ()]: the null hash. *)
Definition uint256_null : uint256 := repeat x00 32.

Fixpoint bytes_eqb (a b : list byte) : bool :=
  match a, b with
  | [], [] => true
  | x :: a', y :: b' => Byte.eqb x y && bytes_eqb a' b'
  | _, _ => false
  end.

(** [std::equal] of [needle] against the start of [hay]. *)
Fixpoint is_prefix (needle hay : list byte) : bool :=
  match needle, hay with
  | [], _ => true
  | _ :: _, [] => false
  | x :: needle', y :: hay' => Byte.eqb x y && is_prefix needle' hay'
  end.

(** [std::search (hay.begin (), hay.end (), needle.begin (), needle.end ())]
    as an offset: the first position where [needle] occurs, and
    [List.length hay] (the end iterator) when it occurs nowhere. *)
Fixpoint search (hay needle : list byte) : nat :=
  match hay with
  | [] => O
  | _ :: hay' => if is_prefix needle hay then O else S (search hay' needle)
  end.

(** [std::search (hay.begin () + from, hay.end (), ...)]. *)
Definition search_from (from : nat) (hay needle : list byte) : nat :=
  (from + search (skipn from hay) needle)%nat.

Definition byte_at (s : list byte) (i : nat) : Z :=
  Z.of_N (Byte.to_N (nth i s x00)).

(** [memcpy (&v, &s[pc], 4); v = le32toh (v);] *)
Definition ReadLE32 (s : list byte) (pc : nat) : Z :=
  byte_at s pc
  + 2 ^ 8 * byte_at s (pc + 1)
  + 2 ^ 16 * byte_at s (pc + 2)
  + 2 ^ 24 * byte_at s (pc + 3).

(** [(unsigned char) z] *)
Definition byte_of_Z (z : Z) : byte :=
  match Byte.of_N (Z.to_N (z mod 256)) with
  | Some b => b
  | None => x00
  end.

(** Header for merge-mining data in the coinbase: [0xfa, 0xbe, 'm', 'm']. *)
Definition pchMergedMiningHeader : list byte := [xfa; xbe; x6d; x6d].

(** ** Data model *)

Record COutPoint := { outpoint_hash : uint256; outpoint_n : Z }.

(** Modelled from the spec: [COutPoint::SetNull] is declared in the
    transaction classes, which are not part of this file; the builder
    makes the prevout of the coinbase input null. *)
Definition COutPoint_null : COutPoint :=
  {| outpoint_hash := uint256_null; outpoint_n := Int.u32 (-1) |}.

Record CTxIn := { prevout : COutPoint; scriptSig : CScript }.
Record CTxOut := { nValue : Z; scriptPubKey : CScript }.

Record CTransaction := { vin : list CTxIn; vout : list CTxOut }.
Record CPOSTransaction := { pos_vin : list CTxIn; pos_vout : list CTxOut }.

(** [CBaseMerkleTx] extended with the transaction it proves; [CMerkleTx]
    and [CPOSMerkleTx] differ in the transaction type only. *)
Record CBaseMerkleTx (T : Type) := {
  tx : T;
  hashBlock : uint256;
  vMerkleBranch : list uint256;
  nIndex : Z
}.
Arguments tx {T} _.
Arguments hashBlock {T} _.
Arguments vMerkleBranch {T} _.
Arguments nIndex {T} _.

Definition CMerkleTx : Type := CBaseMerkleTx CTransaction.
Definition CPOSMerkleTx : Type := CBaseMerkleTx CPOSTransaction.

Definition set_nIndex {T : Type} (m : CBaseMerkleTx T) (i : Z) : CBaseMerkleTx T :=
  {| tx := tx m; hashBlock := hashBlock m;
     vMerkleBranch := vMerkleBranch m; nIndex := i |}.

(** Parent block headers; [check] reads the version and the merkle root. *)
Record CDefaultBlockHeader := {
  default_nVersion : Z;
  default_hashMerkleRoot : uint256
}.

Record CEquihashBlockHeader := {
  equihash_nVersion : Z;
  equihash_hashMerkleRoot : uint256
}.

Record CAuxPow := {
  coinbaseTx : CMerkleTx;
  coinbasePOSTx : CPOSMerkleTx;
  vChainMerkleBranch : list uint256;
  nChainIndex : Z;
  defaultparentBlock : CDefaultBlockHeader;
  equihashparentBlock : CEquihashBlockHeader;
  nVersion : Z;
  strZhashConfig : string
}.

Definition getDefaultParentBlock (a : CAuxPow) := defaultparentBlock a.
Definition getEquihashParentBlock (a : CAuxPow) := equihashparentBlock a.

Definition set_coinbasePOSTx (a : CAuxPow) (m : CPOSMerkleTx) : CAuxPow :=
  {| coinbaseTx := coinbaseTx a; coinbasePOSTx := m;
     vChainMerkleBranch := vChainMerkleBranch a; nChainIndex := nChainIndex a;
     defaultparentBlock := defaultparentBlock a;
     equihashparentBlock := equihashparentBlock a;
     nVersion := nVersion a; strZhashConfig := strZhashConfig a |}.

Definition set_coinbaseTx (a : CAuxPow) (m : CMerkleTx) : CAuxPow :=
  {| coinbaseTx := m; coinbasePOSTx := coinbasePOSTx a;
     vChainMerkleBranch := vChainMerkleBranch a; nChainIndex := nChainIndex a;
     defaultparentBlock := defaultparentBlock a;
     equihashparentBlock := equihashparentBlock a;
     nVersion := nVersion a; strZhashConfig := strZhashConfig a |}.

Definition set_nChainIndex (a : CAuxPow) (i : Z) : CAuxPow :=
  {| coinbaseTx := coinbaseTx a; coinbasePOSTx := coinbasePOSTx a;
     vChainMerkleBranch := vChainMerkleBranch a; nChainIndex := i;
     defaultparentBlock := defaultparentBlock a;
     equihashparentBlock := equihashparentBlock a;
     nVersion := nVersion a; strZhashConfig := strZhashConfig a |}.

Definition set_defaultparentBlock (a : CAuxPow) (b : CDefaultBlockHeader) : CAuxPow :=
  {| coinbaseTx := coinbaseTx a; coinbasePOSTx := coinbasePOSTx a;
     vChainMerkleBranch := vChainMerkleBranch a; nChainIndex := nChainIndex a;
     defaultparentBlock := b;
     equihashparentBlock := equihashparentBlock a;
     nVersion := nVersion a; strZhashConfig := strZhashConfig a |}.

Definition set_equihashparentBlock (a : CAuxPow) (b : CEquihashBlockHeader) : CAuxPow :=
  {| coinbaseTx := coinbaseTx a; coinbasePOSTx := coinbasePOSTx a;
     vChainMerkleBranch := vChainMerkleBranch a; nChainIndex := nChainIndex a;
     defaultparentBlock := defaultparentBlock a;
     equihashparentBlock := b;
     nVersion := nVersion a; strZhashConfig := strZhashConfig a |}.

Definition set_nVersion (a : CAuxPow) (v : Z) : CAuxPow :=
  {| coinbaseTx := coinbaseTx a; coinbasePOSTx := coinbasePOSTx a;
     vChainMerkleBranch := vChainMerkleBranch a; nChainIndex := nChainIndex a;
     defaultparentBlock := defaultparentBlock a;
     equihashparentBlock := equihashparentBlock a;
     nVersion := v; strZhashConfig := strZhashConfig a |}.

Definition set_strZhashConfig (a : CAuxPow) (s : string) : CAuxPow :=
  {| coinbaseTx := coinbaseTx a; coinbasePOSTx := coinbasePOSTx a;
     vChainMerkleBranch := vChainMerkleBranch a; nChainIndex := nChainIndex a;
     defaultparentBlock := defaultparentBlock a;
     equihashparentBlock := equihashparentBlock a;
     nVersion := nVersion a; strZhashConfig := s |}.

(** [Consensus::Params], the one field [check] reads. *)
Record Params := { fStrictChainId : bool }.

(** Modelled from the spec: [GetChainId] of a parent block header is
    declared in the block header classes, which are not part of this
    file; the chain id is the upper 16 bits of the header's version. *)
Definition GetChainId (version : Z) : Z := Z.shiftr version 16.

(** ** Deterministic chain index *)

(** [CAuxPow::getExpectedIndex].  [rand] is a [uint32_t], [nChainId] an
    [int] that the compound addition converts to [uint32_t], and the
    remainder is converted to the [int] return type.  [1u << h] has no
    meaning in C++ for [h >= 32]; callers pass [h <= 30]. *)
Definition getExpectedIndex (nNonce nChainId h : Z) : Z :=
  let rand := Int.u32 nNonce in
  let rand := Int.add (Int.mul rand 1103515245) 12345 in
  let rand := Int.add rand (Int.u32 nChainId) in
  let rand := Int.add (Int.mul rand 1103515245) 12345 in
  Int.i32 (rand mod Int.shl 1 h).

(** The slot derivation as the specification words it: one wrapping
    linear congruential step, the chain id mixed in, a second step. *)
Definition lcg_step (r : Z) : Z := (r * 1103515245 + 12345) mod 2 ^ 32.

Definition expectedIndex_spec (nonce chainId h : Z) : Z :=
  let r := nonce in
  let r := lcg_step r in
  let r := (r + chainId) mod 2 ^ 32 in
  let r := lcg_step r in
  r mod 2 ^ h.

(** ** Sample instances

    Stand-ins for the collaborators of the verifier (hash functions,
    version bits, the child-chain header) and a few AuxPoWs, on which the
    definitions below can be evaluated.  Nothing is claimed about the
    stand-ins themselves. *)

Module Sample.

(** A stand-in for the double SHA-256: the first 32 bytes of the
    zero-padded input. *)
Definition sha (bs : list byte) : uint256 := firstn 32 (bs ++ repeat x00 32).

Definition txhash (t : CTransaction) : uint256 :=
  sha (List.concat (map scriptSig (vin t))).

Definition postxhash (t : CPOSTransaction) : uint256 :=
  sha (x01 :: List.concat (map scriptSig (pos_vin t))).

Definition EQUIHASH_FLAG : Z := 1.
Definition ZHASH_FLAG : Z := 2.
Definition STAKE_FLAG : Z := 4.

(** A child-chain header reduced to its version: bit 8 marks AuxPoW,
    the four bits above it give the algorithm. *)
Definition header : Type := Z.
Definition SetAuxpowVersion (v : header) (auxpow : bool) : header :=
  if auxpow then Z.lor v 256 else Z.ldiff v 256.
Definition GetAlgo (v : header) : Z := Z.land (Z.shiftr v 9) 15.
Definition GetHash (v : header) : uint256 :=
  sha [byte_of_Z v; byte_of_Z (Z.shiftr v 8);
       byte_of_Z (Z.shiftr v 16); byte_of_Z (Z.shiftr v 24)].
Definition ALGO_SHA256D : Z := 0.
Definition ALGO_EQUIHASH : Z := 1.
Definition ALGO_ZHASH : Z := 2.

Definition strZhashPersonalize : string := "ZcashPoW".

Definition merkle_root (leaves : list uint256) : uint256 :=
  match leaves with
  | [] => uint256_null
  | [leaf] => leaf
  | l :: r :: _ => sha (l ++ r)
  end.

Definition childHash : uint256 := repeat x11 32.

(** A proof-of-work AuxPoW on a default parent: the coinbase has one
    input with the given script and sits alone in the parent block. *)
Definition auxpow_with (script : CScript) (index : Z)
    (chainBranch : list uint256) (chainIndex : Z) (parentVersion : Z)
    : CAuxPow :=
  let coinbase :=
    {| vin := [ {| prevout := COutPoint_null; scriptSig := script |} ];
       vout := [] |} in
  {| coinbaseTx :=
       {| tx := coinbase; hashBlock := uint256_null;
          vMerkleBranch := []; nIndex := index |};
     coinbasePOSTx :=
       {| tx := {| pos_vin := []; pos_vout := [] |};
          hashBlock := uint256_null; vMerkleBranch := []; nIndex := -1 |};
     vChainMerkleBranch := chainBranch;
     nChainIndex := chainIndex;
     defaultparentBlock :=
       {| default_nVersion := parentVersion;
          default_hashMerkleRoot := txhash coinbase |};
     equihashparentBlock :=
       {| equihash_nVersion := 0; equihash_hashMerkleRoot := uint256_null |};
     nVersion := 0;
     strZhashConfig := EmptyString |}.

(** The script the builder makes for [childHash]. *)
Definition minimal_script : CScript :=
  x28 :: rev childHash ++ [x01; x00; x00; x00; x00; x00; x00; x00].

(** A script with the merged-mining header before the root and a
    second header at its end. *)
Definition two_header_script : CScript :=
  [xfa; xbe; x6d; x6d] ++ rev childHash
  ++ [x01; x00; x00; x00; x00; x00; x00; x00] ++ [xfa; xbe; x6d; x6d].

(** The version made of a subset of the three bits. *)
Definition version_of (equihash zhash stake : bool) : Z :=
  Z.lor (if equihash then EQUIHASH_FLAG else 0)
    (Z.lor (if zhash then ZHASH_FLAG else 0)
       (if stake then STAKE_FLAG else 0)).

Definition strict : Params := {| fStrictChainId := true |}.
Definition lenient : Params := {| fStrictChainId := false |}.

(** An AuxPoW of height 1 for [childHash]: one sibling, chain index 1;
    the coinbase script holds the root, a tree size of 2 and nonce 0. *)
Definition sibling : uint256 := repeat x22 32.

Definition height1_script : CScript :=
  rev (sha (sibling ++ childHash)) ++ [x02; x00; x00; x00; x00; x00; x00; x00].

Definition height1_auxpow : CAuxPow :=
  auxpow_with height1_script 0 [sibling] 1 0.

(** A coinbase script with the merged-mining header, one stray byte,
    and then the root. *)
Definition detached_header_script : CScript :=
  [xfa; xbe; x6d; x6d; x00] ++ rev childHash
  ++ [x01; x00; x00; x00; x00; x00; x00; x00].

(** A coinbase script without merged-mining header whose root starts
    at offset 21. *)
Definition late_root_script : CScript :=
  repeat x00 21 ++ rev childHash ++ [x01; x00; x00; x00; x00; x00; x00; x00].


(** An AuxPoW whose coinbase has no input, in a parent block with the
    matching merkle root. *)
Definition auxpow_without_inputs : CAuxPow :=
  let coinbase := {| vin := []; vout := [] |} in
  {| coinbaseTx :=
       {| tx := coinbase; hashBlock := uint256_null;
          vMerkleBranch := []; nIndex := 0 |};
     coinbasePOSTx :=
       {| tx := {| pos_vin := []; pos_vout := [] |};
          hashBlock := uint256_null; vMerkleBranch := []; nIndex := -1 |};
     vChainMerkleBranch := [];
     nChainIndex := 0;
     defaultparentBlock :=
       {| default_nVersion := 0;
          default_hashMerkleRoot := txhash coinbase |};
     equihashparentBlock :=
       {| equihash_nVersion := 0; equihash_hashMerkleRoot := uint256_null |};
     nVersion := 0;
     strZhashConfig := EmptyString |}.

End Sample.

Section AuxPow.

(** Double SHA-256 of a byte string, from the hashing library. *)
Variable DoubleSHA256 : list byte -> uint256.

(** [Hash (p1begin, p1end, p2begin, p2end)]: the double SHA-256 of the
    concatenation of two byte ranges. *)
Definition Hash (p1 p2 : list byte) : uint256 := DoubleSHA256 (p1 ++ p2).

(** ** Merkle branch folding *)

(** One iteration of the loop of [CheckMerkleBranch] on the pair of
    mutable locals [(hash, nIndex)]. *)
Definition merkle_step (st : uint256 * Z) (it : uint256) : uint256 * Z :=
  let '(hash, nIndex) := st in
  let hash := if negb (Z.land nIndex 1 =? 0) then Hash it hash
              else Hash hash it in
  (hash, Z.shiftr nIndex 1).

(** [CAuxPow::CheckMerkleBranch]. *)
Definition CheckMerkleBranch (hash : uint256) (vMerkleBranch : list uint256)
    (nIndex : Z) : uint256 :=
  if nIndex =? -1 then uint256_null
  else fst (fold_left merkle_step vMerkleBranch (hash, nIndex)).

(** The fold as the specification words it. *)
Fixpoint foldSiblings (acc : uint256) (branch : list uint256) (index : Z)
    : uint256 :=
  match branch with
  | [] => acc
  | sibling :: rest =>
      let acc' := if Z.testbit index 0
                  then DoubleSHA256 (sibling ++ acc)
                  else DoubleSHA256 (acc ++ sibling) in
      foldSiblings acc' rest (Z.shiftr index 1)
  end.

Definition foldMerkleBranch (leaf : uint256) (branch : list uint256)
    (index : Z) : uint256 :=
  if Int.u32 index =? 0xFFFFFFFF then uint256_null
  else foldSiblings leaf branch index.

(** ** The verifier *)

(** Transaction hashes ([GetHash] of the two transaction classes), from
    the transaction library. *)
Variable TxHash : CTransaction -> uint256.
Variable POSTxHash : CPOSTransaction -> uint256.

(** The version bits, declared in auxpow.h. *)
Variable AUXPOW_EQUIHASH_FLAG : Z.
Variable AUXPOW_ZHASH_FLAG : Z.
Variable AUXPOW_STAKE_FLAG : Z.

(** [v & flag] used as a condition. *)
Definition has_flag (v flag : Z) : bool := negb (Z.land v flag =? 0).

Definition isAuxPowEquihash (a : CAuxPow) : bool :=
  has_flag (nVersion a) AUXPOW_EQUIHASH_FLAG.
Definition isAuxPowZhash (a : CAuxPow) : bool :=
  has_flag (nVersion a) AUXPOW_ZHASH_FLAG.
Definition isAuxPowPOS (a : CAuxPow) : bool :=
  has_flag (nVersion a) AUXPOW_STAKE_FLAG.

(** [vin[0].scriptSig]; indexing an empty [vin] is undefined. *)
Definition vin0_scriptSig (inputs : list CTxIn) : result CScript :=
  match inputs with
  | [] => Undefined
  | txin :: _ => Ok (scriptSig txin)
  end.

(** [CAuxPow::check]. *)
Definition check (a : CAuxPow) (hashAuxBlock : uint256) (nChainId : Z)
    (params : Params) : result unit :=
  let fSameChainId :=
    if isAuxPowEquihash a
    then GetChainId (equihash_nVersion (getEquihashParentBlock a)) =? nChainId
    else GetChainId (default_nVersion (getDefaultParentBlock a)) =? nChainId in
  let nIndex :=
    if isAuxPowPOS a then nIndex (coinbasePOSTx a) else nIndex (coinbaseTx a) in
  error_if (negb (nIndex =? 0)) "AuxPow is not a generate" ;;
  error_if (fStrictChainId params && fSameChainId)
    "Aux POW parent has our chain ID" ;;
  error_if (30 <? Z.of_nat (List.length (vChainMerkleBranch a)))
    "Aux POW chain merkle branch too long" ;;
  error_if (isAuxPowZhash a
            && negb (Z.of_nat (String.length (strZhashConfig a)) =? 8))
    "Aux POW Zhash personalization string size has wrong size." ;;
  let nRootHash :=
    CheckMerkleBranch hashAuxBlock (vChainMerkleBranch a) (nChainIndex a) in
  let vchRootHash := rev nRootHash in
  let blockMerkleRoot :=
    if isAuxPowEquihash a
    then equihash_hashMerkleRoot (getEquihashParentBlock a)
    else default_hashMerkleRoot (getDefaultParentBlock a) in
  let vMerkleBranch :=
    if isAuxPowPOS a then vMerkleBranch (coinbasePOSTx a)
    else vMerkleBranch (coinbaseTx a) in
  let coinbaseTxHash :=
    if isAuxPowPOS a then POSTxHash (tx (coinbasePOSTx a))
    else TxHash (tx (coinbaseTx a)) in
  error_if (negb (bytes_eqb
                    (CheckMerkleBranch coinbaseTxHash vMerkleBranch nIndex)
                    blockMerkleRoot))
    "Aux POW merkle root incorrect" ;;
  script <- (if isAuxPowPOS a
             then vin0_scriptSig (pos_vin (tx (coinbasePOSTx a)))
             else vin0_scriptSig (vin (tx (coinbaseTx a)))) ;;
  let script_end := List.length script in
  let pcHead := search script pchMergedMiningHeader in
  let pc := search script vchRootHash in
  error_if (Nat.eqb pc script_end)
    "Aux POW missing chain merkle root in parent coinbase" ;;
  (if negb (Nat.eqb pcHead script_end)
   then
     error_if (negb (Nat.eqb script_end
                       (search_from (pcHead + 1) script pchMergedMiningHeader)))
       "Multiple merged mining headers in coinbase" ;;
     error_if (negb (Nat.eqb (pcHead + List.length pchMergedMiningHeader) pc))
       "Merged mining header is not just before chain merkle root"
   else
     error_if (20 <? Z.of_nat pc)
       "Aux POW chain merkle root must start in the first 20 bytes of the parent coinbase") ;;
  let pc := (pc + List.length vchRootHash)%nat in
  error_if (Z.of_nat script_end - Z.of_nat pc <? 8)
    "Aux POW missing chain merkle tree size and nonce in parent coinbase" ;;
  let nSize := ReadLE32 script pc in
  let merkleHeight := Z.of_nat (List.length (vChainMerkleBranch a)) in
  error_if (negb (nSize =? Int.shl 1 merkleHeight))
    "Aux POW merkle branch size does not match parent coinbase" ;;
  let nNonce := ReadLE32 script (pc + 4) in
  error_if (negb (nChainIndex a =? getExpectedIndex nNonce nChainId merkleHeight))
    "Aux POW wrong index" ;;
  Ok tt.

(** ** The builder *)

(** Modelled from the spec: [CScript::operator<<] for a byte vector is
    declared in script/script.h, which is not part of this file.  The
    scriptSig of the builder is the pushdata-encoded payload: a length
    prefix chosen by the size of the data ([OP_PUSHDATA1] is [0x4c]),
    then the data. *)
Definition CScript_push (s : CScript) (b : list byte) : CScript :=
  let size := Z.of_nat (List.length b) in
  let prefix :=
    if size <? 0x4c then [byte_of_Z size]
    else if size <=? 0xff then [x4c; byte_of_Z size]
    else if size <=? 0xffff
         then [x4d; byte_of_Z size; byte_of_Z (Z.shiftr size 8)]
    else [x4e; byte_of_Z size; byte_of_Z (Z.shiftr size 8);
          byte_of_Z (Z.shiftr size 16); byte_of_Z (Z.shiftr size 24)] in
  s ++ prefix ++ b.

(** The child-chain header.  Its own fields, its hash and its version
    bits belong to the block header classes; the builder uses them
    through these operations only. *)
Variable CPureBlockHeader : Type.
Variable SetAuxpowVersion : CPureBlockHeader -> bool -> CPureBlockHeader.
Variable GetAlgo : CPureBlockHeader -> Z.
Variable GetHash : CPureBlockHeader -> uint256.
Variable ALGO_EQUIHASH : Z.
Variable ALGO_ZHASH : Z.

(** The configured Zhash personalization string (a global). *)
Variable strZhashPersonalize : string.

(** The merkle root of a list of leaves, from consensus/merkle.h. *)
Variable ComputeMerkleRoot : list uint256 -> uint256.

Record CBlockHeader := {
  pureHeader : CPureBlockHeader;
  auxpow : option CAuxPow
}.

(** Modelled from the spec: [SetAuxpow] is a member of the block header
    class, which is not part of this file; it attaches the AuxPoW to
    the header. *)
Definition SetAuxpow (header : CBlockHeader) (apow : CAuxPow) : CBlockHeader :=
  {| pureHeader := pureHeader header; auxpow := Some apow |}.

(** Modelled from the spec: the four block merkle root functions are
    declared in consensus/merkle.h, which is not part of this file;
    each computes the transaction merkle root of the block it is
    given, over the hashes of its transactions. *)
Definition DefaultBlockMerkleRoot (vtx : list CTransaction) : uint256 :=
  ComputeMerkleRoot (map TxHash vtx).
(** Modelled from the spec: as [DefaultBlockMerkleRoot], for a block
    with an Equihash header. *)
Definition EquihashBlockMerkleRoot (vtx : list CTransaction) : uint256 :=
  ComputeMerkleRoot (map TxHash vtx).
(** Modelled from the spec: as [DefaultBlockMerkleRoot], for a block
    of stake transactions. *)
Definition DefaultPOSBlockMerkleRoot (vtx : list CPOSTransaction) : uint256 :=
  ComputeMerkleRoot (map POSTxHash vtx).
(** Modelled from the spec: as [DefaultBlockMerkleRoot], for a block
    of stake transactions with an Equihash header. *)
Definition EquihashPOSBlockMerkleRoot (vtx : list CPOSTransaction) : uint256 :=
  ComputeMerkleRoot (map POSTxHash vtx).

(** Modelled from the spec: the constructors of [CBaseMerkleTx] are
    declared in auxpow.h, which is not part of this file.  A merkle
    transaction is made with an empty branch (which [initAuxPow]
    asserts) at index -1. *)
Definition CMerkleTx_new {T : Type} (t : T) : CBaseMerkleTx T :=
  {| tx := t; hashBlock := uint256_null; vMerkleBranch := []; nIndex := -1 |}.

(** Modelled from the spec: the members of [CAuxPow] are declared in
    auxpow.h, which is not part of this file.  Members a constructor
    does not set are default-constructed: an empty chain branch (which
    [initAuxPow] asserts), an empty personalization string, null parent
    headers. *)
Definition CAuxPow_members (m : CMerkleTx) (p : CPOSMerkleTx) : CAuxPow :=
  {| coinbaseTx := m; coinbasePOSTx := p;
     vChainMerkleBranch := []; nChainIndex := 0;
     defaultparentBlock :=
       {| default_nVersion := 0; default_hashMerkleRoot := uint256_null |};
     equihashparentBlock :=
       {| equihash_nVersion := 0; equihash_hashMerkleRoot := uint256_null |};
     nVersion := 0; strZhashConfig := EmptyString |}.

(** Modelled from the spec: [CAuxPow (CTransactionRef txIn)], declared in
    auxpow.h, stores the coinbase transaction in [coinbaseTx]. *)
Definition CAuxPow_new (txIn : CTransaction) : CAuxPow :=
  CAuxPow_members (CMerkleTx_new txIn)
    (CMerkleTx_new {| pos_vin := []; pos_vout := [] |}).

(** Modelled from the spec: [CAuxPow (CPOSTransactionRef txIn)], declared
    in auxpow.h, stores the stake coinbase transaction in
    [coinbasePOSTx]. *)
Definition CAuxPow_newPOS (txIn : CPOSTransaction) : CAuxPow :=
  CAuxPow_members (CMerkleTx_new {| vin := []; vout := [] |})
    (CMerkleTx_new txIn).

(** The minimal coinbase script input for merge-mining: the reversed
    block hash, then [1] and seven zero bytes. *)
Definition inputData_of (blockHash : uint256) : list byte :=
  let inputData := rev blockHash in
  let inputData := inputData ++ [x01] in
  inputData ++ repeat x00 7.

(** [if (nAuxPowVersion & AUXPOW_ZHASH_FLAG)] block of the Equihash
    branches; [None] is a failed [assert]. *)
Definition set_zhash_config (nAuxPowVersion : Z) (a : CAuxPow) : option CAuxPow :=
  if has_flag nAuxPowVersion AUXPOW_ZHASH_FLAG
  then
    if Nat.eqb (String.length strZhashPersonalize) 8
    then Some (set_strZhashConfig a strZhashPersonalize)
    else None
  else Some a.

(** [CAuxPow::initAuxPow]; the header is taken and returned by value,
    [None] is a failed [assert]. *)
Definition initAuxPow (header : CBlockHeader) (nAuxPowVersion : Z)
    : option CBlockHeader :=
  let header :=
    {| pureHeader := SetAuxpowVersion (pureHeader header) true;
       auxpow := auxpow header |} in
  let algo := GetAlgo (pureHeader header) in
  if ((algo =? ALGO_EQUIHASH) || (algo =? ALGO_ZHASH))
     && (has_flag nAuxPowVersion AUXPOW_EQUIHASH_FLAG
         || has_flag nAuxPowVersion AUXPOW_ZHASH_FLAG)
  then
    if has_flag nAuxPowVersion AUXPOW_STAKE_FLAG
    then
      let blockHash := GetHash (pureHeader header) in
      let inputData := inputData_of blockHash in
      let coinbase :=
        {| pos_vin := [ {| prevout := COutPoint_null;
                           scriptSig := CScript_push [] inputData |} ];
           pos_vout := [] |} in
      let parent_vtx := [coinbase] in
      let parent_hashMerkleRoot := EquihashPOSBlockMerkleRoot parent_vtx in
      let equihashblock :=
        {| equihash_nVersion := 1;
           equihash_hashMerkleRoot := parent_hashMerkleRoot |} in
      let a := CAuxPow_newPOS coinbase in
      let a := set_nVersion a nAuxPowVersion in
      let a := set_nChainIndex a 0 in
      let a := set_coinbasePOSTx a (set_nIndex (coinbasePOSTx a) 0) in
      let a := set_equihashparentBlock a equihashblock in
      match set_zhash_config nAuxPowVersion a with
      | Some a => Some (SetAuxpow header a)
      | None => None
      end
    else
      let blockHash := GetHash (pureHeader header) in
      let inputData := inputData_of blockHash in
      let coinbase :=
        {| vin := [ {| prevout := COutPoint_null;
                       scriptSig := CScript_push [] inputData |} ];
           vout := [] |} in
      let parent_vtx := [coinbase] in
      let parent :=
        {| equihash_nVersion := 1;
           equihash_hashMerkleRoot := EquihashBlockMerkleRoot parent_vtx |} in
      let a := CAuxPow_new coinbase in
      let a := set_nVersion a nAuxPowVersion in
      let a := set_nChainIndex a 0 in
      let a := set_coinbaseTx a (set_nIndex (coinbaseTx a) 0) in
      let a := set_equihashparentBlock a parent in
      match set_zhash_config nAuxPowVersion a with
      | Some a => Some (SetAuxpow header a)
      | None => None
      end
  else
    if has_flag nAuxPowVersion AUXPOW_STAKE_FLAG
    then
      let blockHash := GetHash (pureHeader header) in
      let inputData := inputData_of blockHash in
      let coinbase :=
        {| pos_vin := [ {| prevout := COutPoint_null;
                           scriptSig := CScript_push [] inputData |} ];
           pos_vout := [] |} in
      let parent_vtx := [coinbase] in
      let parent_hashMerkleRoot := DefaultPOSBlockMerkleRoot parent_vtx in
      let defaultblock :=
        {| default_nVersion := 1;
           default_hashMerkleRoot := parent_hashMerkleRoot |} in
      let a := CAuxPow_newPOS coinbase in
      let a := set_nVersion a nAuxPowVersion in
      let a := set_nChainIndex a 0 in
      let a := set_coinbasePOSTx a (set_nIndex (coinbasePOSTx a) 0) in
      let a := set_defaultparentBlock a defaultblock in
      Some (SetAuxpow header a)
    else
      let blockHash := GetHash (pureHeader header) in
      let inputData := inputData_of blockHash in
      let coinbase :=
        {| vin := [ {| prevout := COutPoint_null;
                       scriptSig := CScript_push [] inputData |} ];
           vout := [] |} in
      let parent_vtx := [coinbase] in
      let parent :=
        {| default_nVersion := 1;
           default_hashMerkleRoot := DefaultBlockMerkleRoot parent_vtx |} in
      let a := CAuxPow_new coinbase in
      let a := set_nVersion a nAuxPowVersion in
      let a := set_nChainIndex a 0 in
      let a := set_coinbaseTx a (set_nIndex (coinbaseTx a) 0) in
      let a := set_defaultparentBlock a parent in
      Some (SetAuxpow header a).

(** ** Vocabulary for the statements

    The members [check] selects through the version bits, and its
    stages as functions of their own.  [check_stages] below shows
    that [check] is their composition. *)

Definition coinbase_nIndex (a : CAuxPow) : Z :=
  if isAuxPowPOS a then nIndex (coinbasePOSTx a) else nIndex (coinbaseTx a).

Definition coinbase_vMerkleBranch (a : CAuxPow) : list uint256 :=
  if isAuxPowPOS a then vMerkleBranch (coinbasePOSTx a)
  else vMerkleBranch (coinbaseTx a).

Definition coinbase_hash (a : CAuxPow) : uint256 :=
  if isAuxPowPOS a then POSTxHash (tx (coinbasePOSTx a))
  else TxHash (tx (coinbaseTx a)).

Definition coinbase_script (a : CAuxPow) : result CScript :=
  if isAuxPowPOS a then vin0_scriptSig (pos_vin (tx (coinbasePOSTx a)))
  else vin0_scriptSig (vin (tx (coinbaseTx a))).

Definition parent_chainId (a : CAuxPow) : Z :=
  if isAuxPowEquihash a
  then GetChainId (equihash_nVersion (getEquihashParentBlock a))
  else GetChainId (default_nVersion (getDefaultParentBlock a)).

Definition parent_hashMerkleRoot (a : CAuxPow) : uint256 :=
  if isAuxPowEquihash a
  then equihash_hashMerkleRoot (getEquihashParentBlock a)
  else default_hashMerkleRoot (getDefaultParentBlock a).

(** The chain merkle root as it must appear in the coinbase. *)
Definition vchRootHash_of (a : CAuxPow) (hashAuxBlock : uint256) : list byte :=
  rev (CheckMerkleBranch hashAuxBlock (vChainMerkleBranch a) (nChainIndex a)).

(** The checks made before the coinbase script is read. *)
Definition check_fields (a : CAuxPow) (nChainId : Z) (params : Params)
    : result unit :=
  error_if (negb (coinbase_nIndex a =? 0)) "AuxPow is not a generate" ;;
  error_if (fStrictChainId params && (parent_chainId a =? nChainId))
    "Aux POW parent has our chain ID" ;;
  error_if (30 <? Z.of_nat (List.length (vChainMerkleBranch a)))
    "Aux POW chain merkle branch too long" ;;
  error_if (isAuxPowZhash a
            && negb (Z.of_nat (String.length (strZhashConfig a)) =? 8))
    "Aux POW Zhash personalization string size has wrong size." ;;
  error_if (negb (bytes_eqb
                    (CheckMerkleBranch (coinbase_hash a)
                       (coinbase_vMerkleBranch a) (coinbase_nIndex a))
                    (parent_hashMerkleRoot a)))
    "Aux POW merkle root incorrect".

(** The search for the chain merkle root in the coinbase script; the
    result is the offset [pc] of the root. *)
Definition locate_root (script : CScript) (vchRootHash : list byte)
    : result nat :=
  let script_end := List.length script in
  let pcHead := search script pchMergedMiningHeader in
  let pc := search script vchRootHash in
  error_if (Nat.eqb pc script_end)
    "Aux POW missing chain merkle root in parent coinbase" ;;
  (if negb (Nat.eqb pcHead script_end)
   then
     error_if (negb (Nat.eqb script_end
                       (search_from (pcHead + 1) script pchMergedMiningHeader)))
       "Multiple merged mining headers in coinbase" ;;
     error_if (negb (Nat.eqb (pcHead + List.length pchMergedMiningHeader) pc))
       "Merged mining header is not just before chain merkle root"
   else
     error_if (20 <? Z.of_nat pc)
       "Aux POW chain merkle root must start in the first 20 bytes of the parent coinbase") ;;
  Ok pc.

(** The checks on the bytes that follow the root; [pc] is the offset
    just past the root. *)
Definition check_size_nonce (a : CAuxPow) (nChainId : Z) (script : CScript)
    (pc : nat) : result unit :=
  error_if (Z.of_nat (List.length script) - Z.of_nat pc <? 8)
    "Aux POW missing chain merkle tree size and nonce in parent coinbase" ;;
  let nSize := ReadLE32 script pc in
  let merkleHeight := Z.of_nat (List.length (vChainMerkleBranch a)) in
  error_if (negb (nSize =? Int.shl 1 merkleHeight))
    "Aux POW merkle branch size does not match parent coinbase" ;;
  let nNonce := ReadLE32 script (pc + 4) in
  error_if (negb (nChainIndex a =? getExpectedIndex nNonce nChainId merkleHeight))
    "Aux POW wrong index" ;;
  Ok tt.

(** [needle] occurs in [hay] at offset [i]. *)
Definition occurs_at (needle hay : list byte) (i : nat) : Prop :=
  exists before after : list byte,
    hay = before ++ needle ++ after /\ List.length before = i.

(** The conditions under which the checks before the script succeed. *)
Definition fields_accepted (a : CAuxPow) (nChainId : Z) (params : Params)
    : Prop :=
  coinbase_nIndex a = 0
  /\ (fStrictChainId params = true -> parent_chainId a <> nChainId)
  /\ (List.length (vChainMerkleBranch a) <= 30)%nat
  /\ (isAuxPowZhash a = true -> String.length (strZhashConfig a) = 8%nat)
  /\ CheckMerkleBranch (coinbase_hash a) (coinbase_vMerkleBranch a)
       (coinbase_nIndex a) = parent_hashMerkleRoot a.

(** The conditions under which the root is accepted at offset [pc] of
    the script: it is the first occurrence of the root, and either a
    single merged-mining header ends right before it, or there is no
    header and the root starts within the first 20 bytes. *)
Definition root_accepted_at (script : CScript) (vchRootHash : list byte)
    (pc : nat) : Prop :=
  pc = search script vchRootHash
  /\ (pc < List.length script)%nat
  /\ let pcHead := search script pchMergedMiningHeader in
     ((pcHead < List.length script)%nat
      /\ search_from (pcHead + 1) script pchMergedMiningHeader
         = List.length script
      /\ (pcHead + 4)%nat = pc)
     \/ (pcHead = List.length script /\ (pc <= 20)%nat).

(** The bytes the builder puts after the root: a tree size of 1 and a
    nonce of 0, both little-endian. *)
Definition size_nonce_bytes : list byte :=
  [x01; x00; x00; x00; x00; x00; x00; x00].

(** The version bits agree with the algorithm of the header: the
    Equihash bit is set only for an Equihash or Zhash header, and the
    Zhash bit only together with the Equihash bit. *)
Definition flags_agree (header : CPureBlockHeader) (nAuxPowVersion : Z)
    : Prop :=
  (has_flag nAuxPowVersion AUXPOW_EQUIHASH_FLAG = true ->
   GetAlgo header = ALGO_EQUIHASH \/ GetAlgo header = ALGO_ZHASH)
  /\ (has_flag nAuxPowVersion AUXPOW_ZHASH_FLAG = true ->
      has_flag nAuxPowVersion AUXPOW_EQUIHASH_FLAG = true).

(** Projection of the members the builder has set. *)
Ltac reduce_members :=
  cbv beta iota delta
    [coinbase_nIndex coinbase_vMerkleBranch coinbase_hash
     coinbase_script parent_hashMerkleRoot parent_chainId
     isAuxPowEquihash isAuxPowZhash isAuxPowPOS
     getEquihashParentBlock getDefaultParentBlock
     EquihashPOSBlockMerkleRoot EquihashBlockMerkleRoot
     DefaultPOSBlockMerkleRoot DefaultBlockMerkleRoot
     set_strZhashConfig set_equihashparentBlock set_defaultparentBlock
     set_coinbaseTx set_coinbasePOSTx set_nChainIndex set_nVersion
     set_nIndex CAuxPow_new CAuxPow_newPOS CAuxPow_members CMerkleTx_new
     nVersion strZhashConfig coinbaseTx coinbasePOSTx vChainMerkleBranch
     nChainIndex defaultparentBlock equihashparentBlock
     tx hashBlock vMerkleBranch nIndex vin pos_vin vout pos_vout
     equihash_hashMerkleRoot default_hashMerkleRoot
     equihash_nVersion default_nVersion vin0_scriptSig scriptSig map].

(** The same projection in a hypothesis. *)
Ltac reduce_members_in H :=
  cbv beta iota delta
    [coinbase_nIndex coinbase_vMerkleBranch coinbase_hash
     coinbase_script parent_hashMerkleRoot parent_chainId
     isAuxPowEquihash isAuxPowZhash isAuxPowPOS
     getEquihashParentBlock getDefaultParentBlock
     EquihashPOSBlockMerkleRoot EquihashBlockMerkleRoot
     DefaultPOSBlockMerkleRoot DefaultBlockMerkleRoot
     set_strZhashConfig set_equihashparentBlock set_defaultparentBlock
     set_coinbaseTx set_coinbasePOSTx set_nChainIndex set_nVersion
     set_nIndex CAuxPow_new CAuxPow_newPOS CAuxPow_members CMerkleTx_new
     nVersion strZhashConfig coinbaseTx coinbasePOSTx vChainMerkleBranch
     nChainIndex defaultparentBlock equihashparentBlock
     tx hashBlock vMerkleBranch nIndex vin pos_vin vout pos_vout
     equihash_hashMerkleRoot default_hashMerkleRoot
     equihash_nVersion default_nVersion vin0_scriptSig scriptSig map] in H.

(** ** Vocabulary for further properties *)

(** [k] is the first offset at which [needle] occurs in [hay]. *)
Definition first_occurrence (needle hay : list byte) (k : nat) : Prop :=
  occurs_at needle hay k
  /\ forall j, (j < k)%nat -> ~ occurs_at needle hay j.

(** The slot derivation of [getExpectedIndex] carried out in unsigned
    integers of [w] bits instead of 32. *)
Definition expectedIndex_width (w nonce chainId h : Z) : Z :=
  let r := nonce mod 2 ^ w in
  let r := (r * 1103515245 + 12345) mod 2 ^ w in
  let r := (r + chainId) mod 2 ^ w in
  let r := (r * 1103515245 + 12345) mod 2 ^ w in
  r mod 2 ^ h.

Definition set_hashBlock {T : Type} (m : CBaseMerkleTx T) (h : uint256)
    : CBaseMerkleTx T :=
  {| tx := tx m; hashBlock := h;
     vMerkleBranch := vMerkleBranch m; nIndex := nIndex m |}.

(** Everything [check] requires of an AuxPoW, in one statement: the
    member tests, a coinbase script in which the root is accepted at
    some offset, at least 8 bytes behind the root, the tree size and
    the slot. *)
Definition accepted (a : CAuxPow) (hashAuxBlock : uint256) (nChainId : Z)
    (params : Params) : Prop :=
  fields_accepted a nChainId params
  /\ exists (script : CScript) (pc : nat),
       coinbase_script a = Ok script
       /\ root_accepted_at script (vchRootHash_of a hashAuxBlock) pc
       /\ (pc + List.length (vchRootHash_of a hashAuxBlock) + 8
           <= List.length script)%nat
       /\ ReadLE32 script (pc + List.length (vchRootHash_of a hashAuxBlock))
          = 2 ^ Z.of_nat (List.length (vChainMerkleBranch a))
       /\ nChainIndex a
          = getExpectedIndex
              (ReadLE32 script
                 (pc + List.length (vchRootHash_of a hashAuxBlock) + 4))
              nChainId (Z.of_nat (List.length (vChainMerkleBranch a))).

(** ** Basic facts: bytes, prefixes and [std::search] *)

Lemma byte_eqb_true (x y : byte) : Byte.eqb x y = true <-> x = y.
Proof.
  split; [apply Byte.byte_dec_bl | apply Byte.byte_dec_lb].
Qed.

Lemma byte_eqb_refl (x : byte) : Byte.eqb x x = true.
Proof. now apply byte_eqb_true. Qed.

Lemma bytes_eqb_true (a b : list byte) : bytes_eqb a b = true <-> a = b.
Proof.
  revert b; induction a as [|x a IH]; intros [|y b]; simpl;
    try (split; [discriminate | discriminate]); [tauto|].
  rewrite andb_true_iff, byte_eqb_true, IH.
  split; [intros [-> ->]; reflexivity | intros H; inversion H; auto].
Qed.

Lemma bytes_eqb_refl (a : list byte) : bytes_eqb a a = true.
Proof. now apply bytes_eqb_true. Qed.

Lemma is_prefix_app (n t : list byte) : is_prefix n (n ++ t) = true.
Proof.
  induction n as [|x n IH]; simpl; [reflexivity|].
  now rewrite byte_eqb_refl, IH.
Qed.

Lemma is_prefix_true (n h : list byte) :
  is_prefix n h = true <-> exists t, h = n ++ t.
Proof.
  split.
  - revert h; induction n as [|x n IH]; intros h H.
    + exists h; reflexivity.
    + destruct h as [|y h]; simpl in H; [discriminate|].
      apply andb_true_iff in H as [Hxy Hn].
      apply byte_eqb_true in Hxy; subst y.
      destruct (IH _ Hn) as [t ->]. exists t; reflexivity.
  - intros [t ->]; apply is_prefix_app.
Qed.

Lemma search_le (hay needle : list byte) :
  (search hay needle <= List.length hay)%nat.
Proof.
  induction hay as [|y hay IH]; simpl; [lia|].
  destruct (is_prefix needle (y :: hay)); lia.
Qed.

(** Where [std::search] reports a match, the needle is there. *)
Lemma search_found (hay needle : list byte) :
  (search hay needle < List.length hay)%nat ->
  is_prefix needle (skipn (search hay needle) hay) = true.
Proof.
  induction hay as [|y hay IH]; simpl; [lia|].
  destruct (is_prefix needle (y :: hay)) eqn:E; simpl; [now rewrite E|].
  intros H; apply IH; lia.
Qed.

(** [std::search] reports the first match. *)
Lemma search_first (hay needle : list byte) (i : nat) :
  (i < List.length hay)%nat ->
  is_prefix needle (skipn i hay) = true ->
  (search hay needle <= i)%nat.
Proof.
  revert i; induction hay as [|y hay IH]; intros i Hi Hp; simpl in *; [lia|].
  destruct (is_prefix needle (y :: hay)) eqn:E; [lia|].
  destruct i as [|i]; simpl in Hp; [congruence|].
  apply le_n_S, IH; [lia | exact Hp].
Qed.

Lemma search_none (hay needle : list byte) :
  (forall i, (i < List.length hay)%nat ->
             is_prefix needle (skipn i hay) = false) ->
  search hay needle = List.length hay.
Proof.
  intros H.
  destruct (Nat.eq_dec (search hay needle) (List.length hay)) as [|Hne];
    [assumption|].
  pose proof (search_le hay needle) as Hle.
  assert (Hlt : (search hay needle < List.length hay)%nat) by lia.
  pose proof (search_found hay needle Hlt) as Hf.
  rewrite (H _ Hlt) in Hf. discriminate.
Qed.

(** ** The deterministic index *)

Lemma shl_one (h : Z) : 0 <= h <= 31 -> Int.shl 1 h = 2 ^ h.
Proof.
  intros Hh. unfold Int.shl, Int.u32, Int.modulus.
  rewrite Z.shiftl_1_l. apply Z.mod_small. split.
  - apply Z.pow_nonneg; lia.
  - apply Z.pow_lt_mono_r; lia.
Qed.

Lemma i32_small (z : Z) : 0 <= z < Int.half_modulus -> Int.i32 z = z.
Proof.
  intros Hz. unfold Int.i32.
  assert (Hm : z mod Int.modulus = z).
  { apply Z.mod_small. unfold Int.modulus, Int.half_modulus in *. lia. }
  rewrite Hm. destruct (Z.ltb_spec z Int.half_modulus); lia.
Qed.

(** Two wrapping operations make one wrapping linear step. *)
Lemma add_mul_lcg (r : Z) :
  Int.add (Int.mul r 1103515245) 12345 = lcg_step r.
Proof.
  unfold Int.add, Int.mul, Int.u32, Int.modulus, lcg_step.
  now rewrite Z.add_mod_idemp_l by lia.
Qed.

Lemma lcg_step_u32 (r : Z) : lcg_step (Int.u32 r) = lcg_step r.
Proof.
  unfold lcg_step, Int.u32, Int.modulus.
  rewrite <- Z.add_mod_idemp_l by lia.
  rewrite Z.mul_mod_idemp_l by lia.
  now rewrite Z.add_mod_idemp_l by lia.
Qed.

Lemma getExpectedIndex_unfold (nNonce nChainId h : Z) :
  0 <= h <= 30 ->
  getExpectedIndex nNonce nChainId h
  = lcg_step ((lcg_step nNonce + nChainId) mod 2 ^ 32) mod 2 ^ h.
Proof.
  intros Hh. unfold getExpectedIndex.
  rewrite !add_mul_lcg, lcg_step_u32, shl_one by lia.
  assert (Hadd : Int.add (lcg_step nNonce) (Int.u32 nChainId)
                 = (lcg_step nNonce + nChainId) mod 2 ^ 32).
  { unfold Int.add, Int.u32, Int.modulus.
    now rewrite Z.add_mod_idemp_r by lia. }
  rewrite Hadd. apply i32_small.
  assert (H2h : 0 < 2 ^ h) by (apply Z.pow_pos_nonneg; lia).
  assert (Hle : 2 ^ h <= 2 ^ 30) by (apply Z.pow_le_mono_r; lia).
  pose proof (Z.mod_pos_bound
                (lcg_step ((lcg_step nNonce + nChainId) mod 2 ^ 32))
                (2 ^ h) H2h) as Hb.
  unfold Int.half_modulus.
  change (2 ^ 30) with 1073741824 in Hle.
  change (2 ^ 31) with 2147483648. lia.
Qed.

(** The slot is a valid leaf number of a tree of height [h]. *)
Lemma getExpectedIndex_range (nNonce nChainId h : Z) :
  0 <= h <= 30 -> 0 <= getExpectedIndex nNonce nChainId h < 2 ^ h.
Proof.
  intros Hh. rewrite getExpectedIndex_unfold by assumption.
  apply Z.mod_pos_bound, Z.pow_pos_nonneg; lia.
Qed.

(** The wrap-around is immaterial: the same slot comes out of the
    computation done in unbounded integers, as the source remarks. *)
Lemma getExpectedIndex_unbounded (nNonce nChainId h : Z) :
  0 <= h <= 30 ->
  getExpectedIndex nNonce nChainId h
  = ((nNonce * 1103515245 + 12345 + nChainId) * 1103515245 + 12345)
      mod 2 ^ h.
Proof.
  intros Hh. rewrite getExpectedIndex_unfold by assumption.
  assert (Hsplit : 2 ^ 32 = 2 ^ h * 2 ^ (32 - h)).
  { rewrite <- Z.pow_add_r by lia. f_equal; lia. }
  assert (H2h : 0 < 2 ^ h) by (apply Z.pow_pos_nonneg; lia).
  assert (H2r : 0 < 2 ^ (32 - h)) by (apply Z.pow_pos_nonneg; lia).
  assert (Hdrop : forall x, (x mod 2 ^ 32) mod 2 ^ h = x mod 2 ^ h).
  { intros x. rewrite Hsplit, Z.rem_mul_r by lia.
    rewrite (Z.mul_comm (2 ^ h) ((x / 2 ^ h) mod 2 ^ (32 - h))).
    rewrite Z.mod_add by lia. apply Z.mod_mod; lia. }
  assert (Hstep : forall x y, x mod 2 ^ h = y mod 2 ^ h ->
            (x * 1103515245 + 12345) mod 2 ^ h
            = (y * 1103515245 + 12345) mod 2 ^ h).
  { intros x y Hxy.
    rewrite <- (Z.add_mod_idemp_l (x * _)), <- (Z.mul_mod_idemp_l x) by lia.
    rewrite Hxy.
    now rewrite Z.mul_mod_idemp_l, Z.add_mod_idemp_l by lia. }
  unfold lcg_step. rewrite Hdrop. apply Hstep.
  rewrite Hdrop.
  rewrite <- Z.add_mod_idemp_l by lia. rewrite Hdrop.
  now rewrite Z.add_mod_idemp_l by lia.
Qed.

(** C3.  For every nonce, chain id and height [h <= 30],
    [getExpectedIndex] is the two-step linear congruential derivation
    of the specification: a step [r * 1103515245 + 12345] modulo
    [2^32], the chain id added modulo [2^32], a second step, and the
    remainder modulo [2^h].  Being a function, it gives equal outputs
    on equal inputs. *)
Theorem getExpectedIndex_lcg (nNonce nChainId h : Z) :
  0 <= h <= 30 ->
  getExpectedIndex nNonce nChainId h = expectedIndex_spec nNonce nChainId h
  /\ (forall nNonce' nChainId' h',
         nNonce' = nNonce -> nChainId' = nChainId -> h' = h ->
         getExpectedIndex nNonce' nChainId' h'
         = getExpectedIndex nNonce nChainId h).
Proof.
  intros Hh. split.
  - rewrite getExpectedIndex_unfold by assumption. reflexivity.
  - intros ? ? ? -> -> ->. reflexivity.
Qed.

(** ** Merkle branch folding *)

Lemma land_one_testbit (i : Z) : negb (Z.land i 1 =? 0) = Z.testbit i 0.
Proof.
  change 1 with (Z.ones 1) at 1. rewrite Z.land_ones by lia.
  change (2 ^ 1) with 2. rewrite <- Z.bit0_mod.
  destruct (Z.testbit i 0); reflexivity.
Qed.

Lemma fold_left_merkle_step (branch : list uint256) (acc : uint256) (i : Z) :
  fst (fold_left merkle_step branch (acc, i)) = foldSiblings acc branch i.
Proof.
  revert acc i; induction branch as [|sibling rest IH]; intros acc i;
    simpl; [reflexivity|].
  rewrite land_one_testbit, Z.bit0_odd, IH. unfold Hash.
  destruct (Z.odd i); reflexivity.
Qed.

Lemma sentinel_u32 (i : Z) :
  Int.in_i32 i -> (Int.u32 i =? 0xFFFFFFFF) = (i =? -1).
Proof.
  unfold Int.in_i32, Int.half_modulus, Int.u32, Int.modulus.
  change (2 ^ 31) with 2147483648. change (2 ^ 32) with 4294967296.
  intros Hi.
  destruct (Z.eqb_spec i (-1)) as [->|Hne]; [reflexivity|].
  apply Z.eqb_neq. intros Hm.
  destruct (Z_lt_le_dec i 0).
  - assert (H : (i + 1 * 4294967296) mod 4294967296 = i + 4294967296)
      by (apply Z.mod_small; lia).
    rewrite Z.mod_add in H by lia. lia.
  - rewrite Z.mod_small in Hm by lia. lia.
Qed.

(** C4.  For every leaf, branch and index (an [int]),
    [CheckMerkleBranch] returns the null hash when the index is the
    sentinel -1, whose 32-bit pattern is [0xFFFFFFFF], and otherwise
    folds the leaf over the siblings in order: the accumulator becomes
    the double SHA-256 of sibling-then-accumulator when bit 0 of the
    current index is set and of accumulator-then-sibling when it is
    clear, and the index is shifted right by one after each step. *)
Theorem CheckMerkleBranch_fold (leaf : uint256) (branch : list uint256)
    (index : Z) :
  Int.in_i32 index ->
  CheckMerkleBranch leaf branch index = foldMerkleBranch leaf branch index.
Proof.
  intros Hi. unfold CheckMerkleBranch, foldMerkleBranch.
  rewrite sentinel_u32 by assumption.
  destruct (index =? -1); [reflexivity|].
  apply fold_left_merkle_step.
Qed.

(** Read as an unsigned 32-bit number, the index gives the same fold as
    long as the branch has at most 32 siblings: only then does the sign
    of the [int] never reach bit 0. *)
Lemma foldSiblings_shiftr_u32 (branch : list uint256) (acc : uint256)
    (index k : Z) :
  0 <= k ->
  k + Z.of_nat (List.length branch) <= 32 ->
  foldSiblings acc branch (Z.shiftr index k)
  = foldSiblings acc branch (Z.shiftr (Int.u32 index) k).
Proof.
  revert acc k; induction branch as [|sibling rest IH]; intros acc k Hk Hlen;
    [reflexivity|].
  cbn [foldSiblings List.length] in *.
  rewrite !Z.shiftr_shiftr by lia.
  rewrite !Z.shiftr_spec by lia.
  replace (0 + k) with k by lia.
  assert (Hbit : Z.testbit (Int.u32 index) k = Z.testbit index k)
    by (unfold Int.u32, Int.modulus; apply Z.mod_pow2_bits_low; lia).
  rewrite Hbit, (IH _ (k + 1)) by lia.
  reflexivity.
Qed.

Lemma foldSiblings_u32 (branch : list uint256) (acc : uint256) (index : Z) :
  (List.length branch <= 32)%nat ->
  foldSiblings acc branch index = foldSiblings acc branch (Int.u32 index).
Proof.
  intros Hlen.
  rewrite <- (Z.shiftr_0_r index) at 1.
  rewrite <- (Z.shiftr_0_r (Int.u32 index)).
  apply foldSiblings_shiftr_u32; lia.
Qed.

(** C9.  Folding a hash over the empty branch with index 0 returns the
    hash unchanged. *)
Theorem CheckMerkleBranch_nil (x : uint256) : CheckMerkleBranch x [] 0 = x.
Proof. reflexivity. Qed.

(** ** The verifier, stage by stage *)

Lemma bind_error_if_true {B : Type} (c : bool) (reason : string)
    (k : unit -> result B) :
  c = true -> bind (error_if c reason) k = Err reason.
Proof. intros ->; reflexivity. Qed.

Lemma bind_error_if_false {B : Type} (c : bool) (reason : string)
    (k : unit -> result B) :
  c = false -> bind (error_if c reason) k = k tt.
Proof. intros ->; reflexivity. Qed.

Lemma bind_Ok_inv {A B : Type} (r : result A) (k : A -> result B) (b : B) :
  bind r k = Ok b -> exists x, r = Ok x /\ k x = Ok b.
Proof.
  destruct r as [x| |]; simpl; intros H; try discriminate.
  exists x; split; [reflexivity | assumption].
Qed.

Lemma error_if_Ok_inv (c : bool) (reason : string) (u : unit) :
  error_if c reason = Ok u -> c = false.
Proof. destruct c; simpl; [discriminate | reflexivity]. Qed.

Lemma bind_assoc {A B C : Type} (r : result A) (f : A -> result B)
    (g : B -> result C) :
  bind (bind r f) g = bind r (fun x => bind (f x) g).
Proof. destruct r; reflexivity. Qed.

Lemma bind_ext {A B : Type} (r : result A) (f g : A -> result B) :
  (forall x, f x = g x) -> bind r f = bind r g.
Proof. intros H; destruct r; simpl; [apply H | reflexivity | reflexivity]. Qed.

(** [check] is the composition of its stages. *)
Lemma check_stages (a : CAuxPow) (hashAuxBlock : uint256) (nChainId : Z)
    (params : Params) :
  check a hashAuxBlock nChainId params
  = (check_fields a nChainId params ;;
     script <- coinbase_script a ;;
     pc <- locate_root script (vchRootHash_of a hashAuxBlock) ;;
     check_size_nonce a nChainId script
       (pc + List.length (vchRootHash_of a hashAuxBlock))).
Proof.
  unfold check, check_fields, coinbase_script, coinbase_nIndex,
    coinbase_vMerkleBranch, coinbase_hash, parent_chainId,
    parent_hashMerkleRoot, vchRootHash_of.
  cbv zeta.
  destruct (isAuxPowEquihash a), (isAuxPowPOS a);
    repeat (try rewrite bind_assoc; apply bind_ext; intros ?);
    unfold locate_root; cbv zeta;
    repeat (try rewrite bind_assoc; apply bind_ext; intros ?);
    reflexivity.
Qed.

Lemma check_fields_accepted (a : CAuxPow) (nChainId : Z) (params : Params) :
  fields_accepted a nChainId params <->
  check_fields a nChainId params = Ok tt.
Proof.
  unfold fields_accepted, check_fields. split.
  - intros (Hidx & Hid & Hlen & Hz & Hroot).
    rewrite bind_error_if_false
      by (rewrite Hidx; reflexivity).
    rewrite bind_error_if_false.
    2:{ destruct (fStrictChainId params); [|reflexivity].
        simpl. apply Z.eqb_neq. auto. }
    rewrite bind_error_if_false by (apply Z.ltb_ge; lia).
    rewrite bind_error_if_false.
    2:{ destruct (isAuxPowZhash a); [|reflexivity].
        rewrite Hz by reflexivity. reflexivity. }
    rewrite Hroot, bytes_eqb_refl. reflexivity.
  - intros H.
    apply bind_Ok_inv in H as (? & H1%error_if_Ok_inv & H).
    apply bind_Ok_inv in H as (? & H2%error_if_Ok_inv & H).
    apply bind_Ok_inv in H as (? & H3%error_if_Ok_inv & H).
    apply bind_Ok_inv in H as (? & H4%error_if_Ok_inv & H).
    apply error_if_Ok_inv in H.
    apply negb_false_iff, Z.eqb_eq in H1.
    apply negb_false_iff, bytes_eqb_true in H.
    apply Z.ltb_ge in H3.
    repeat split; try assumption.
    + intros Hs. rewrite Hs in H2. simpl in H2. now apply Z.eqb_neq.
    + lia.
    + intros Hz. rewrite Hz in H4. simpl in H4.
      apply negb_false_iff, Z.eqb_eq in H4. lia.
Qed.

Lemma locate_root_accepted (script : CScript) (vchRootHash : list byte)
    (pc : nat) :
  root_accepted_at script vchRootHash pc <->
  locate_root script vchRootHash = Ok pc.
Proof.
  unfold root_accepted_at, locate_root. cbv zeta.
  change (List.length pchMergedMiningHeader) with 4%nat.
  pose proof (search_le script vchRootHash) as Hle.
  pose proof (search_le script pchMergedMiningHeader) as HleH.
  split.
  - intros (-> & Hlt & Hhead).
    rewrite bind_error_if_false by (apply Nat.eqb_neq; lia).
    destruct Hhead as [(HltH & Hone & Hpos) | (HnoH & Hpos)].
    + replace (Nat.eqb (search script pchMergedMiningHeader)
                 (List.length script)) with false
        by (symmetry; apply Nat.eqb_neq; lia).
      cbn [negb]. rewrite Hone, Nat.eqb_refl. cbn [negb error_if bind].
      rewrite Hpos, Nat.eqb_refl. reflexivity.
    + rewrite HnoH, Nat.eqb_refl. cbn [negb].
      rewrite bind_error_if_false by (apply Z.ltb_ge; lia).
      reflexivity.
  - intros H.
    apply bind_Ok_inv in H as (? & H1%error_if_Ok_inv & H).
    apply bind_Ok_inv in H as (? & H2 & H).
    injection H as <-.
    apply Nat.eqb_neq in H1.
    split; [reflexivity|]. split; [lia|].
    destruct (Nat.eqb (search script pchMergedMiningHeader)
                (List.length script)) eqn:EH; cbn [negb] in H2.
    + right. apply Nat.eqb_eq in EH.
      apply error_if_Ok_inv, Z.ltb_ge in H2. split; [assumption | lia].
    + left. apply Nat.eqb_neq in EH.
      apply bind_Ok_inv in H2 as (? & H3%error_if_Ok_inv & H2).
      apply error_if_Ok_inv in H2.
      apply negb_false_iff, Nat.eqb_eq in H3.
      apply negb_false_iff, Nat.eqb_eq in H2.
      repeat split; [lia | congruence | assumption].
Qed.

(** ** Occurrences and [std::search] *)

Lemma occurs_at_prefix (needle hay : list byte) (i : nat) :
  occurs_at needle hay i -> is_prefix needle (skipn i hay) = true.
Proof.
  intros (before & after & -> & <-).
  rewrite skipn_app, skipn_all, Nat.sub_diag. simpl.
  apply is_prefix_app.
Qed.

Lemma prefix_occurs_at (needle hay : list byte) (i : nat) :
  (i < List.length hay)%nat ->
  is_prefix needle (skipn i hay) = true -> occurs_at needle hay i.
Proof.
  intros Hi Hp. apply is_prefix_true in Hp as [after Hafter].
  exists (firstn i hay), after. split.
  - rewrite <- Hafter. symmetry. apply firstn_skipn.
  - apply firstn_length_le. lia.
Qed.

Lemma occurs_at_length (needle hay : list byte) (i : nat) :
  occurs_at needle hay i ->
  (i + List.length needle <= List.length hay)%nat.
Proof.
  intros (before & after & -> & <-). rewrite !length_app. lia.
Qed.

(** An occurrence anywhere makes [std::search] report a match, at or
    before that occurrence. *)
Lemma search_occurs (needle hay : list byte) (i : nat) :
  hay <> [] -> occurs_at needle hay i ->
  (search hay needle < List.length hay)%nat /\ (search hay needle <= i)%nat.
Proof.
  intros Hne Hocc.
  destruct (Nat.lt_ge_cases i (List.length hay)) as [Hlt|Hge].
  - pose proof (search_first hay needle i Hlt (occurs_at_prefix _ _ _ Hocc)).
    lia.
  - pose proof (occurs_at_length _ _ _ Hocc) as Hlen.
    assert (Hnil : needle = []) by (destruct needle; simpl in *; [reflexivity|lia]).
    subst needle. destruct hay as [|y hay]; [congruence|]. simpl. lia.
Qed.

Lemma search_not_occurs (needle hay : list byte) :
  (forall i, ~ occurs_at needle hay i) -> search hay needle = List.length hay.
Proof.
  intros H. apply search_none. intros i Hi.
  destruct (is_prefix needle (skipn i hay)) eqn:E; [|reflexivity].
  exfalso. apply (H i). now apply prefix_occurs_at.
Qed.

(** A second occurrence is found by the search that restarts one byte
    past the first match. *)
Lemma search_from_second (needle hay : list byte) (i j : nat) :
  (i < j)%nat -> occurs_at needle hay i -> occurs_at needle hay j ->
  needle <> [] ->
  (search_from (search hay needle + 1) hay needle < List.length hay)%nat.
Proof.
  intros Hij Hi Hj Hne.
  assert (Hlen : (0 < List.length needle)%nat)
    by (destruct needle; simpl; [congruence|lia]).
  pose proof (occurs_at_length _ _ _ Hj) as Hjlen.
  assert (Hhay : hay <> []) by (destruct hay; simpl in *; [lia|congruence]).
  destruct (search_occurs needle hay i Hhay Hi) as [_ Hfirst].
  unfold search_from.
  set (from := (search hay needle + 1)%nat).
  assert (Hfrom : (from <= j)%nat) by (unfold from; lia).
  assert (Hocc : occurs_at needle (skipn from hay) (j - from)).
  { destruct Hj as (before & after & Heq & Hb).
    exists (skipn from before), after. split.
    - rewrite Heq, skipn_app.
      replace (from - List.length before)%nat with 0%nat by lia.
      reflexivity.
    - rewrite length_skipn. lia. }
  assert (Hrest : skipn from hay <> []).
  { intros Hnil. apply (f_equal (@List.length byte)) in Hnil.
    rewrite length_skipn in Hnil. simpl in Hnil. lia. }
  destruct (search_occurs needle (skipn from hay) (j - from) Hrest Hocc)
    as [Hlt _].
  rewrite length_skipn in Hlt. lia.
Qed.

(** ** Failure reasons of the verifier *)

(** The coinbase index is tested before anything else. *)
Lemma check_not_generate (a : CAuxPow) (hashAuxBlock : uint256)
    (nChainId : Z) (params : Params) :
  coinbase_nIndex a <> 0 ->
  check a hashAuxBlock nChainId params = Err "AuxPow is not a generate".
Proof.
  intros H. rewrite check_stages. unfold check_fields.
  rewrite bind_assoc. apply bind_error_if_true.
  apply negb_true_iff, Z.eqb_neq, H.
Qed.

Lemma check_Ok_fields (a : CAuxPow) (hashAuxBlock : uint256)
    (nChainId : Z) (params : Params) :
  check a hashAuxBlock nChainId params = Ok tt ->
  fields_accepted a nChainId params.
Proof.
  rewrite check_stages. intros H.
  apply bind_Ok_inv in H as ([] & Hfields & _).
  now apply check_fields_accepted.
Qed.

(** C2, as the code has it.  Under strict chain ids, an AuxPoW whose
    parent block carries the chain id of this chain is never
    accepted, and when its coinbase index is 0 it is rejected with
    the reason "Aux POW parent has our chain ID", whatever its other
    members are; this is the second test, made after the test of the
    coinbase index. *)
Theorem check_same_chain_id (a : CAuxPow) (hashAuxBlock : uint256)
    (nChainId : Z) (params : Params) :
  fStrictChainId params = true ->
  parent_chainId a = nChainId ->
  check a hashAuxBlock nChainId params <> Ok tt
  /\ (coinbase_nIndex a = 0 ->
      check a hashAuxBlock nChainId params
      = Err "Aux POW parent has our chain ID").
Proof.
  intros Hstrict Hid. split.
  - intros H. apply check_Ok_fields in H as (_ & Hne & _).
    exact (Hne Hstrict Hid).
  - intros Hidx. rewrite check_stages. unfold check_fields.
    rewrite bind_assoc.
    rewrite bind_error_if_false by (rewrite Hidx; reflexivity).
    rewrite bind_assoc. apply bind_error_if_true.
    rewrite Hstrict, Hid, Z.eqb_refl. reflexivity.
Qed.

(** C6, as the code has it.  An AuxPoW with more than 30 siblings in
    its chain merkle branch is never accepted, and it is rejected
    with the reason "Aux POW chain merkle branch too long" when its
    coinbase index is 0 and the chain id test does not fire; its
    other members do not matter. *)
Theorem check_branch_too_long (a : CAuxPow) (hashAuxBlock : uint256)
    (nChainId : Z) (params : Params) :
  (30 < List.length (vChainMerkleBranch a))%nat ->
  check a hashAuxBlock nChainId params <> Ok tt
  /\ (coinbase_nIndex a = 0 ->
      (fStrictChainId params = true -> parent_chainId a <> nChainId) ->
      check a hashAuxBlock nChainId params
      = Err "Aux POW chain merkle branch too long").
Proof.
  intros Hlen. split.
  - intros H. apply check_Ok_fields in H as (_ & _ & Hle & _). lia.
  - intros Hidx Hid. rewrite check_stages. unfold check_fields.
    rewrite bind_assoc.
    rewrite bind_error_if_false by (rewrite Hidx; reflexivity).
    rewrite bind_assoc. rewrite bind_error_if_false.
    2:{ destruct (fStrictChainId params); [|reflexivity].
        simpl. apply Z.eqb_neq. auto. }
    rewrite bind_assoc. apply bind_error_if_true.
    apply Z.ltb_lt. lia.
Qed.

Lemma pchMergedMiningHeader_not_nil : pchMergedMiningHeader <> [].
Proof. discriminate. Qed.

(** C7, as the code has it.  An AuxPoW whose coinbase script holds
    the merged-mining header at two offsets is never accepted, and
    when the tests made before the script scan succeed and the chain
    merkle root is in the script, it is rejected with the reason
    "Multiple merged mining headers in coinbase". *)
Theorem check_multiple_headers (a : CAuxPow) (hashAuxBlock : uint256)
    (nChainId : Z) (params : Params) (script : CScript) (i j : nat) :
  coinbase_script a = Ok script ->
  (i < j)%nat ->
  occurs_at pchMergedMiningHeader script i ->
  occurs_at pchMergedMiningHeader script j ->
  check a hashAuxBlock nChainId params <> Ok tt
  /\ (fields_accepted a nChainId params ->
      (exists k, occurs_at (vchRootHash_of a hashAuxBlock) script k) ->
      check a hashAuxBlock nChainId params
      = Err "Multiple merged mining headers in coinbase").
Proof.
  intros Hscript Hij Hi Hj.
  assert (Hne : script <> []).
  { pose proof (occurs_at_length _ _ _ Hi) as Hl.
    destruct script; simpl in Hl; [lia | congruence]. }
  destruct (search_occurs _ _ _ Hne Hi) as [HpcHead _].
  pose proof (search_from_second _ _ _ _ Hij Hi Hj
                pchMergedMiningHeader_not_nil) as Hsecond.
  split.
  - rewrite check_stages. intros H.
    apply bind_Ok_inv in H as (? & _ & H).
    rewrite Hscript in H. cbn [bind] in H.
    apply bind_Ok_inv in H as (pc & Hloc & _).
    apply locate_root_accepted in Hloc as (_ & _ & Hhead).
    cbv zeta in Hhead. lia.
  - intros Hfields [k Hroot].
    rewrite check_stages.
    apply check_fields_accepted in Hfields. rewrite Hfields, Hscript.
    cbn [bind]. unfold locate_root. cbv zeta.
    destruct (search_occurs _ _ _ Hne Hroot) as [Hpc _].
    rewrite !bind_assoc.
    rewrite bind_error_if_false by (apply Nat.eqb_neq; lia).
    replace (Nat.eqb (search script pchMergedMiningHeader)
               (List.length script)) with false
      by (symmetry; apply Nat.eqb_neq; lia).
    cbn [negb]. rewrite !bind_assoc. apply bind_error_if_true.
    apply negb_true_iff, Nat.eqb_neq. lia.
Qed.

(** C5.  For every AuxPoW that passes the earlier checks and whose
    coinbase script has at least 8 bytes after the reversed chain
    merkle root: [check] fails with "Aux POW merkle branch size does
    not match parent coinbase" unless the first 4 of those bytes, read
    as a little-endian 32-bit number, are [1 << chainMerkleBranch.len];
    otherwise it fails with "Aux POW wrong index" unless the chain
    index is [getExpectedIndex] of the nonce in the next 4 bytes, the
    chain id and the branch length; and it succeeds when both hold. *)
Theorem check_size_and_index (a : CAuxPow) (hashAuxBlock : uint256)
    (nChainId : Z) (params : Params) (script : CScript) (pc : nat) :
  let root := vchRootHash_of a hashAuxBlock in
  let tail := (pc + List.length root)%nat in
  let height := Z.of_nat (List.length (vChainMerkleBranch a)) in
  let treeSize := ReadLE32 script tail in
  let nonce := ReadLE32 script (tail + 4) in
  fields_accepted a nChainId params ->
  coinbase_script a = Ok script ->
  root_accepted_at script root pc ->
  (tail + 8 <= List.length script)%nat ->
  (treeSize <> Z.shiftl 1 height ->
   check a hashAuxBlock nChainId params
   = Err "Aux POW merkle branch size does not match parent coinbase")
  /\ (treeSize = Z.shiftl 1 height ->
      nChainIndex a <> getExpectedIndex nonce nChainId height ->
      check a hashAuxBlock nChainId params = Err "Aux POW wrong index")
  /\ (treeSize = Z.shiftl 1 height ->
      nChainIndex a = getExpectedIndex nonce nChainId height ->
      check a hashAuxBlock nChainId params = Ok tt).
Proof.
  intros root tail height treeSize nonce Hfields Hscript Hroot Htail.
  assert (Hheight : 0 <= height <= 30).
  { destruct Hfields as (_ & _ & Hlen & _). unfold height. lia. }
  assert (Hshl : Int.shl 1 height = Z.shiftl 1 height).
  { rewrite shl_one by lia. now rewrite Z.shiftl_1_l. }
  assert (Hcheck : check a hashAuxBlock nChainId params
                   = check_size_nonce a nChainId script tail).
  { rewrite check_stages.
    apply check_fields_accepted in Hfields. rewrite Hfields, Hscript.
    cbn [bind]. apply locate_root_accepted in Hroot.
    fold root. rewrite Hroot. reflexivity. }
  rewrite Hcheck. unfold check_size_nonce. cbv zeta.
  rewrite bind_error_if_false by (apply Z.ltb_ge; lia).
  fold height. fold treeSize. fold nonce. rewrite Hshl.
  repeat split.
  - intros Hsize. apply bind_error_if_true.
    now apply negb_true_iff, Z.eqb_neq.
  - intros Hsize Hindex.
    rewrite bind_error_if_false
      by now apply negb_false_iff, Z.eqb_eq.
    apply bind_error_if_true.
    now apply negb_true_iff, Z.eqb_neq.
  - intros Hsize Hindex.
    rewrite bind_error_if_false
      by now apply negb_false_iff, Z.eqb_eq.
    rewrite bind_error_if_false
      by now apply negb_false_iff, Z.eqb_eq.
    reflexivity.
Qed.

(** C8.  Two AuxPoWs that differ in the contents of the Zhash
    personalization string only, both strings of length 8, get the
    same result from [check] for every block hash, chain id and
    parameters: the verifier reads the length of the string and never
    its bytes. *)
Theorem check_zhash_config_noninterference (a : CAuxPow) (s1 s2 : string)
    (hashAuxBlock : uint256) (nChainId : Z) (params : Params) :
  String.length s1 = 8%nat ->
  String.length s2 = 8%nat ->
  check (set_strZhashConfig a s1) hashAuxBlock nChainId params
  = check (set_strZhashConfig a s2) hashAuxBlock nChainId params.
Proof.
  intros H1 H2.
  unfold check, isAuxPowEquihash, isAuxPowZhash, isAuxPowPOS,
    getEquihashParentBlock, getDefaultParentBlock, set_strZhashConfig.
  cbn [nVersion strZhashConfig coinbaseTx coinbasePOSTx vChainMerkleBranch
       nChainIndex defaultparentBlock equihashparentBlock].
  rewrite H1, H2. reflexivity.
Qed.

(** C10.  [check] never returns success for an AuxPoW whose chain index
    is negative: the slot [getExpectedIndex] computes for a height of
    at most 30 is never negative, so the last comparison fails, even
    though the fold of the chain branch accepts the sentinel -1 and
    returns the null hash for it. *)
Theorem check_rejects_negative_chain_index (a : CAuxPow)
    (hashAuxBlock : uint256) (nChainId : Z) (params : Params) :
  nChainIndex a < 0 ->
  check a hashAuxBlock nChainId params <> Ok tt
  /\ (forall nNonce h, 0 <= h <= 30 ->
         0 <= getExpectedIndex nNonce nChainId h < 2 ^ h)
  /\ CheckMerkleBranch hashAuxBlock (vChainMerkleBranch a) (-1)
     = uint256_null.
Proof.
  intros Hneg.
  split; [|split; [intros; now apply getExpectedIndex_range | reflexivity]].
  rewrite check_stages. intros H.
  apply bind_Ok_inv in H as ([] & Hfields & H).
  apply check_fields_accepted in Hfields.
  destruct Hfields as (_ & _ & Hlen & _).
  apply bind_Ok_inv in H as (script & _ & H).
  apply bind_Ok_inv in H as (pc & _ & H).
  unfold check_size_nonce in H. cbv zeta in H.
  apply bind_Ok_inv in H as (? & _ & H).
  apply bind_Ok_inv in H as (? & _ & H).
  apply bind_Ok_inv in H as (? & Hindex%error_if_Ok_inv & _).
  apply negb_false_iff, Z.eqb_eq in Hindex.
  match type of Hindex with
  | _ = getExpectedIndex ?n ?c ?h =>
      pose proof (getExpectedIndex_range n c h) as Hrange
  end.
  lia.
Qed.

(** ** The builder and the verifier *)

Lemma minimal_script (blockHash : uint256) :
  List.length blockHash = 32%nat ->
  CScript_push [] (inputData_of blockHash)
  = x28 :: rev blockHash ++ size_nonce_bytes.
Proof.
  intros Hlen. unfold CScript_push, inputData_of. cbv zeta.
  rewrite !length_app, length_rev, Hlen. simpl.
  now rewrite <- !app_assoc.
Qed.

(** A string that matches itself one byte further on is constant. *)
Lemma is_prefix_shift (r t : list byte) (c : byte) :
  is_prefix r (c :: r ++ t) = true -> r = repeat c (List.length r).
Proof.
  revert c; induction r as [|x r IH]; intros c H; [reflexivity|].
  cbn [is_prefix app] in H. apply andb_true_iff in H as [Hx Hr].
  apply byte_eqb_true in Hx; subst x.
  simpl. f_equal. now apply IH.
Qed.

(** The merged-mining header cannot end inside the size and nonce
    bytes. *)
Lemma header_prefix_tail (l : list byte) :
  is_prefix pchMergedMiningHeader (l ++ size_nonce_bytes) = true ->
  is_prefix pchMergedMiningHeader l = true.
Proof.
  unfold pchMergedMiningHeader, size_nonce_bytes.
  destruct l as [|a [|b [|c [|d l]]]]; cbn [is_prefix app];
    repeat match goal with
           | |- context [Byte.eqb ?x ?y] =>
               destruct (Byte.eqb x y) eqn:?; cbn [andb];
               try discriminate; try reflexivity
           end.
Qed.

Lemma search_header_tail (r : list byte) :
  search r pchMergedMiningHeader = List.length r ->
  search (r ++ size_nonce_bytes) pchMergedMiningHeader
  = List.length (r ++ size_nonce_bytes).
Proof.
  induction r as [|a r IH]; [intros _; reflexivity|].
  cbn [search app List.length].
  destruct (is_prefix pchMergedMiningHeader (a :: r)) eqn:E;
    [discriminate|].
  intros H; injection H as H.
  destruct (is_prefix pchMergedMiningHeader (a :: r ++ size_nonce_bytes))
    eqn:E'.
  - apply (header_prefix_tail (a :: r)) in E'. congruence.
  - f_equal. now apply IH.
Qed.

(** In the script of the builder the root is accepted at offset 1,
    provided the reversed hash neither holds the merged-mining header
    nor consists of the push opcode [0x28] repeated. *)
Lemma root_accepted_minimal (r : list byte) :
  List.length r = 32%nat ->
  (forall i, ~ occurs_at pchMergedMiningHeader r i) ->
  r <> repeat x28 32 ->
  root_accepted_at (x28 :: r ++ size_nonce_bytes) r 1.
Proof.
  intros Hlen Hmagic Hrep.
  assert (Hshift : is_prefix r (x28 :: r ++ size_nonce_bytes) = false).
  { destruct (is_prefix r (x28 :: r ++ size_nonce_bytes)) eqn:E;
      [|reflexivity].
    apply is_prefix_shift in E. rewrite Hlen in E. contradiction. }
  assert (Hhead : search (x28 :: r ++ size_nonce_bytes) pchMergedMiningHeader
                  = List.length (x28 :: r ++ size_nonce_bytes)).
  { change (search (x28 :: r ++ size_nonce_bytes) pchMergedMiningHeader)
      with (S (search (r ++ size_nonce_bytes) pchMergedMiningHeader)).
    rewrite search_header_tail by now apply search_not_occurs.
    reflexivity. }
  unfold root_accepted_at. cbv zeta. rewrite Hhead.
  assert (Hpc : search (x28 :: r ++ size_nonce_bytes) r = 1%nat).
  { cbn [search]. rewrite Hshift.
    destruct r as [|x r]; [discriminate|].
    cbn [search app]. change (x :: r ++ size_nonce_bytes)
      with ((x :: r) ++ size_nonce_bytes).
    now rewrite is_prefix_app. }
  rewrite Hpc. cbn [List.length]. rewrite length_app, Hlen.
  split; [reflexivity|]. split; [lia|].
  right. split; [reflexivity | lia].
Qed.

Lemma byte_at_tail (c : byte) (r t : list byte) (k : nat) :
  byte_at (c :: r ++ t) (S (List.length r + k)) = byte_at t k.
Proof. unfold byte_at. cbn [nth]. now rewrite app_nth2_plus. Qed.

Lemma ReadLE32_tail (c : byte) (r t : list byte) (k : nat) :
  ReadLE32 (c :: r ++ t) (S (List.length r + k)) = ReadLE32 t k.
Proof.
  unfold ReadLE32.
  replace (S (List.length r + k) + 1)%nat
    with (S (List.length r + (k + 1))) by lia.
  replace (S (List.length r + k) + 2)%nat
    with (S (List.length r + (k + 2))) by lia.
  replace (S (List.length r + k) + 3)%nat
    with (S (List.length r + (k + 3))) by lia.
  now rewrite !byte_at_tail.
Qed.

Lemma getExpectedIndex_height_0 (nNonce nChainId : Z) :
  getExpectedIndex nNonce nChainId 0 = 0.
Proof.
  pose proof (getExpectedIndex_range nNonce nChainId 0) as H.
  change (2 ^ 0) with 1 in H. lia.
Qed.

Lemma check_size_nonce_minimal (a : CAuxPow) (nChainId : Z) (r : list byte) :
  vChainMerkleBranch a = [] ->
  nChainIndex a = 0 ->
  check_size_nonce a nChainId (x28 :: r ++ size_nonce_bytes)
    (1 + List.length r)
  = Ok tt.
Proof.
  intros Hbranch Hindex. unfold check_size_nonce. cbv zeta.
  rewrite Hbranch, Hindex.
  rewrite bind_error_if_false.
  2:{ apply Z.ltb_ge. cbn [List.length]. rewrite length_app.
      cbn [List.length size_nonce_bytes]. lia. }
  replace (1 + List.length r)%nat with (S (List.length r + 0)) by lia.
  replace (S (List.length r + 0) + 4)%nat
    with (S (List.length r + 4)) by lia.
  rewrite !ReadLE32_tail. cbn [List.length Z.of_nat].
  rewrite getExpectedIndex_height_0. reflexivity.
Qed.

(** An AuxPoW of the shape the builder makes passes [check]. *)
Lemma check_minimal (a : CAuxPow) (blockHash : uint256) (nChainId : Z)
    (params : Params) :
  List.length blockHash = 32%nat ->
  (forall i, ~ occurs_at pchMergedMiningHeader (rev blockHash) i) ->
  rev blockHash <> repeat x28 32 ->
  fStrictChainId params = false ->
  coinbase_nIndex a = 0 ->
  vChainMerkleBranch a = [] ->
  nChainIndex a = 0 ->
  coinbase_vMerkleBranch a = [] ->
  coinbase_hash a = parent_hashMerkleRoot a ->
  (isAuxPowZhash a = true -> String.length (strZhashConfig a) = 8%nat) ->
  coinbase_script a = Ok (CScript_push [] (inputData_of blockHash)) ->
  check a blockHash nChainId params = Ok tt.
Proof.
  intros Hlen Hmagic Hrep Hstrict Hidx Hbranch Hindex Hcb Hroot Hz Hscript.
  assert (Hfields : fields_accepted a nChainId params).
  { unfold fields_accepted. rewrite Hidx, Hbranch, Hcb, Hstrict.
    repeat split; try assumption; try discriminate.
    simpl; lia. }
  assert (Hvch : vchRootHash_of a blockHash = rev blockHash).
  { unfold vchRootHash_of. now rewrite Hbranch, Hindex. }
  rewrite check_stages.
  apply check_fields_accepted in Hfields.
  rewrite Hfields, Hscript, minimal_script, Hvch by assumption.
  cbn [bind].
  assert (Hr : List.length (rev blockHash) = 32%nat)
    by now rewrite length_rev.
  pose proof (root_accepted_minimal _ Hr Hmagic Hrep) as Hacc.
  apply locate_root_accepted in Hacc. rewrite Hacc. cbn [bind].
  now apply check_size_nonce_minimal.
Qed.

(** C1, as the code has it.  For every header whose hash has 32
    bytes and every version whose bits agree with the algorithm of
    the header (the Equihash bit only for an Equihash or Zhash header,
    the Zhash bit only with the Equihash bit and an 8-byte configured
    personalization string), [initAuxPow] attaches an AuxPoW that
    [check] accepts for the hash of the header and any chain id when
    strict chain ids are off, provided the reversed hash bytes neither
    contain the merged-mining header nor are all [0x28], and the
    merkle root of a single transaction is its hash. *)
Theorem initAuxPow_check (header : CBlockHeader)
    (nAuxPowVersion nChainId : Z) (params : Params) :
  let pure := SetAuxpowVersion (pureHeader header) true in
  List.length (GetHash pure) = 32%nat ->
  (forall leaf, ComputeMerkleRoot [leaf] = leaf) ->
  flags_agree pure nAuxPowVersion ->
  (has_flag nAuxPowVersion AUXPOW_ZHASH_FLAG = true ->
   String.length strZhashPersonalize = 8%nat) ->
  (forall i, ~ occurs_at pchMergedMiningHeader (rev (GetHash pure)) i) ->
  rev (GetHash pure) <> repeat x28 32 ->
  fStrictChainId params = false ->
  exists a,
    initAuxPow header nAuxPowVersion
    = Some {| pureHeader := pure; auxpow := Some a |}
    /\ check a (GetHash pure) nChainId params = Ok tt.
Proof.
  intros pure Hlen Hsingle [Halgo Hzhash] Hpers Hmagic Hrep Hstrict.
  unfold initAuxPow, set_zhash_config, SetAuxpow. cbv zeta.
  cbn [pureHeader auxpow]. fold pure.
  assert (Halgo' : has_flag nAuxPowVersion AUXPOW_EQUIHASH_FLAG = true ->
                   (GetAlgo pure =? ALGO_EQUIHASH)
                   || (GetAlgo pure =? ALGO_ZHASH) = true).
  { intros HE. apply orb_true_iff.
    destruct (Halgo HE) as [->| ->]; rewrite Z.eqb_refl; auto. }
  destruct (has_flag nAuxPowVersion AUXPOW_EQUIHASH_FLAG) eqn:EE;
    destruct (has_flag nAuxPowVersion AUXPOW_ZHASH_FLAG) eqn:EZ;
    try (specialize (Hzhash eq_refl); discriminate);
    try rewrite (Halgo' eq_refl);
    try rewrite (Hpers eq_refl);
    rewrite ?andb_false_r; cbn [andb orb Nat.eqb];
    destruct (has_flag nAuxPowVersion AUXPOW_STAKE_FLAG) eqn:ES;
    (eexists; split; [reflexivity|]);
    apply check_minimal; try assumption;
    reduce_members; rewrite ?EE, ?EZ, ?ES;
    try reflexivity; try (symmetry; apply Hsingle);
    try discriminate; try (intros _; apply (Hpers eq_refl)).
Qed.

(** A version with the Zhash bit on a header of another algorithm
    leaves the personalization string empty, and [check] says so. *)
Lemma initAuxPow_zhash_other_algo (header : CBlockHeader)
    (nAuxPowVersion nChainId : Z) (params : Params) :
  let pure := SetAuxpowVersion (pureHeader header) true in
  has_flag nAuxPowVersion AUXPOW_ZHASH_FLAG = true ->
  GetAlgo pure <> ALGO_EQUIHASH ->
  GetAlgo pure <> ALGO_ZHASH ->
  fStrictChainId params = false ->
  exists a,
    initAuxPow header nAuxPowVersion
    = Some {| pureHeader := pure; auxpow := Some a |}
    /\ check a (GetHash pure) nChainId params
       = Err "Aux POW Zhash personalization string size has wrong size.".
Proof.
  intros pure HZ HnotE HnotZ Hstrict.
  unfold initAuxPow, SetAuxpow. cbv zeta. cbn [pureHeader auxpow].
  fold pure.
  apply Z.eqb_neq in HnotE, HnotZ. rewrite HnotE, HnotZ. cbn [orb andb].
  destruct (has_flag nAuxPowVersion AUXPOW_STAKE_FLAG) eqn:ES;
    (eexists; split; [reflexivity|]);
    rewrite check_stages; unfold check_fields;
    reduce_members; rewrite ?ES, HZ, Hstrict; reflexivity.
Qed.

(** When [std::search] reports no match, there is no occurrence. *)
Lemma search_end_not_occurs (needle hay : list byte) :
  needle <> [] ->
  search hay needle = List.length hay ->
  forall i, ~ occurs_at needle hay i.
Proof.
  intros Hne Hend i Hocc.
  pose proof (occurs_at_length _ _ _ Hocc) as Hlen.
  assert (Hpos : (0 < List.length needle)%nat)
    by (destruct needle; simpl; [congruence | lia]).
  assert (Hhay : hay <> []) by (destruct hay; simpl in *; [lia | congruence]).
  destruct (search_occurs _ _ _ Hhay Hocc) as [Hlt _]. lia.
Qed.

(** ** Further properties of the deterministic index *)

Lemma pow2_mod_mod (w h x : Z) :
  0 <= h <= w -> (x mod 2 ^ w) mod 2 ^ h = x mod 2 ^ h.
Proof.
  intros Hhw.
  assert (Hsplit : 2 ^ w = 2 ^ h * 2 ^ (w - h)).
  { rewrite <- Z.pow_add_r by lia. f_equal; lia. }
  assert (H2h : 0 < 2 ^ h) by (apply Z.pow_pos_nonneg; lia).
  assert (H2r : 0 < 2 ^ (w - h)) by (apply Z.pow_pos_nonneg; lia).
  rewrite Hsplit, Z.rem_mul_r by lia.
  rewrite (Z.mul_comm (2 ^ h) ((x / 2 ^ h) mod 2 ^ (w - h))).
  rewrite Z.mod_add by lia. apply Z.mod_mod; lia.
Qed.

(** A linear step with the odd multiplier of the source is a bijection
    of the residues modulo a power of two. *)
Lemma linear_step_cong (h k x y : Z) :
  0 <= h ->
  (x * 1103515245 + k) mod 2 ^ h = (y * 1103515245 + k) mod 2 ^ h
  <-> x mod 2 ^ h = y mod 2 ^ h.
Proof.
  intros Hh.
  assert (H2h : 0 < 2 ^ h) by (apply Z.pow_pos_nonneg; lia).
  rewrite (Z.cong_iff_0 (x * _ + k)), (Z.cong_iff_0 x).
  replace (x * 1103515245 + k - (y * 1103515245 + k))
    with ((x - y) * 1103515245) by ring.
  split; intros H.
  - apply (Z.cong_mul_cancel_r_coprime _ 1103515245); [lia | | exact H].
    apply Z.coprime_pow_r; [lia | reflexivity].
  - rewrite <- Z.mul_mod_idemp_l, H by lia. apply Z.mod_0_l. lia.
Qed.

Lemma add_cong_l (m u x y : Z) :
  (u + x) mod m = (u + y) mod m <-> x mod m = y mod m.
Proof.
  rewrite (Z.cong_iff_0 (u + x)), (Z.cong_iff_0 x).
  now replace (u + x - (u + y)) with (x - y) by ring.
Qed.

Lemma same_slot_chain_ids (nNonce id1 id2 h : Z) :
  0 <= h <= 30 ->
  getExpectedIndex nNonce id1 h = getExpectedIndex nNonce id2 h
  <-> id1 mod 2 ^ h = id2 mod 2 ^ h.
Proof.
  intros Hh. rewrite !getExpectedIndex_unbounded by assumption.
  rewrite linear_step_cong by lia. apply add_cong_l.
Qed.

(** X12.  For a fixed nonce and a height of at most 30, two chains are
    given the same slot exactly when their chain ids agree modulo
    [2^h]: chains with ids that differ modulo the tree size never
    clash, chains with ids that agree always do. *)
Theorem getExpectedIndex_chain_ids_clash (nNonce id1 id2 h : Z) :
  0 <= h <= 30 ->
  getExpectedIndex nNonce id1 h = getExpectedIndex nNonce id2 h
  <-> id1 mod 2 ^ h = id2 mod 2 ^ h.
Proof. exact (same_slot_chain_ids nNonce id1 id2 h). Qed.

(** X13.  For a fixed chain id and a height of at most 30, two nonces
    give the same slot exactly when they agree modulo [2^h]: the slot
    depends on the low [h] bits of the nonce only, and every change in
    them moves the slot. *)
Theorem getExpectedIndex_nonces_clash (n1 n2 nChainId h : Z) :
  0 <= h <= 30 ->
  getExpectedIndex n1 nChainId h = getExpectedIndex n2 nChainId h
  <-> n1 mod 2 ^ h = n2 mod 2 ^ h.
Proof.
  intros Hh. rewrite !getExpectedIndex_unbounded by assumption.
  rewrite linear_step_cong by lia.
  replace (n1 * 1103515245 + 12345 + nChainId)
    with (n1 * 1103515245 + (12345 + nChainId)) by ring.
  replace (n2 * 1103515245 + 12345 + nChainId)
    with (n2 * 1103515245 + (12345 + nChainId)) by ring.
  apply linear_step_cong; lia.
Qed.

(** X14.  The slot does not depend on the width of the unsigned
    arithmetic: done in [w]-bit integers for any [w >= h] (64 bits, as
    the source remarks of some systems), the derivation gives the
    result of the 32-bit one, for every height of at most 30. *)
Theorem getExpectedIndex_any_width (w nNonce nChainId h : Z) :
  0 <= h <= 30 ->
  h <= w ->
  getExpectedIndex nNonce nChainId h
  = expectedIndex_width w nNonce nChainId h.
Proof.
  intros Hh Hw. rewrite getExpectedIndex_unbounded by assumption.
  unfold expectedIndex_width. cbv zeta.
  rewrite pow2_mod_mod by lia.
  symmetry. apply linear_step_cong; [lia|].
  rewrite pow2_mod_mod by lia.
  replace (nNonce * 1103515245 + 12345 + nChainId)
    with (nChainId + (nNonce * 1103515245 + 12345)) by ring.
  rewrite (Z.add_comm _ nChainId).
  apply add_cong_l.
  rewrite pow2_mod_mod by lia.
  apply linear_step_cong; [lia|].
  apply pow2_mod_mod; lia.
Qed.

(** ** Further properties of the merkle fold *)

Lemma CheckMerkleBranch_foldSiblings (hash : uint256)
    (branch : list uint256) (index : Z) :
  index <> -1 ->
  CheckMerkleBranch hash branch index = foldSiblings hash branch index.
Proof.
  intros Hne. unfold CheckMerkleBranch.
  destruct (Z.eqb_spec index (-1)); [contradiction|].
  apply fold_left_merkle_step.
Qed.

Lemma foldSiblings_app (b1 b2 : list uint256) (acc : uint256) (index : Z) :
  foldSiblings acc (b1 ++ b2) index
  = foldSiblings (foldSiblings acc b1 index) b2
      (Z.shiftr index (Z.of_nat (List.length b1))).
Proof.
  revert acc index; induction b1 as [|sibling rest IH]; intros acc index.
  - cbn [app foldSiblings List.length Z.of_nat].
    now rewrite Z.shiftr_0_r.
  - cbn [app foldSiblings List.length]. rewrite IH.
    rewrite Z.shiftr_shiftr by lia.
    do 2 f_equal. lia.
Qed.

Lemma foldSiblings_testbit (branch : list uint256) (acc : uint256)
    (i j k : Z) :
  0 <= k ->
  (forall n, k <= n < k + Z.of_nat (List.length branch) ->
             Z.testbit i n = Z.testbit j n) ->
  foldSiblings acc branch (Z.shiftr i k)
  = foldSiblings acc branch (Z.shiftr j k).
Proof.
  revert acc k; induction branch as [|sibling rest IH]; intros acc k Hk Hbits;
    [reflexivity|].
  cbn [foldSiblings List.length] in *.
  rewrite !Z.shiftr_shiftr by lia.
  rewrite !Z.shiftr_spec by lia.
  replace (0 + k) with k by lia.
  rewrite (Hbits k) by lia.
  apply (IH _ (k + 1)); [lia|].
  intros n Hn. apply Hbits. lia.
Qed.

(** X15.  Folding over two branches one after the other is folding
    over their concatenation: for a non-negative index, the fold of
    [b1 ++ b2] is the fold of [b2], with the index shifted right by the
    length of [b1], over the fold of [b1]. *)
Theorem CheckMerkleBranch_app (hash : uint256) (b1 b2 : list uint256)
    (index : Z) :
  0 <= index ->
  CheckMerkleBranch hash (b1 ++ b2) index
  = CheckMerkleBranch (CheckMerkleBranch hash b1 index) b2
      (Z.shiftr index (Z.of_nat (List.length b1))).
Proof.
  intros Hi.
  assert (Hs : 0 <= Z.shiftr index (Z.of_nat (List.length b1)))
    by now apply Z.shiftr_nonneg.
  rewrite !CheckMerkleBranch_foldSiblings by lia.
  apply foldSiblings_app.
Qed.

(** X16.  The fold never tests that the index fits the branch: for a
    non-negative index, only its low [length branch] bits are read, so
    an index and its remainder modulo [2 ^ length branch] give the same
    root. *)
Theorem CheckMerkleBranch_index_mod (hash : uint256) (branch : list uint256)
    (index : Z) :
  0 <= index ->
  CheckMerkleBranch hash branch index
  = CheckMerkleBranch hash branch
      (index mod 2 ^ Z.of_nat (List.length branch)).
Proof.
  intros Hi.
  assert (Hm : 0 <= index mod 2 ^ Z.of_nat (List.length branch)).
  { apply Z.mod_pos_bound, Z.pow_pos_nonneg; lia. }
  rewrite !CheckMerkleBranch_foldSiblings by lia.
  rewrite <- (Z.shiftr_0_r index) at 1.
  rewrite <- (Z.shiftr_0_r (index mod _)).
  apply foldSiblings_testbit; [lia|].
  intros n Hn. symmetry. apply Z.mod_pow2_bits_low. lia.
Qed.

(** ** First occurrences *)

Lemma occurs_at_nil (hay : list byte) : occurs_at [] hay 0.
Proof. exists [], hay. split; reflexivity. Qed.

Lemma first_occurrence_lt (needle hay : list byte) (k : nat) :
  hay <> [] -> first_occurrence needle hay k -> (k < List.length hay)%nat.
Proof.
  intros Hne [Hocc Hfirst].
  pose proof (occurs_at_length _ _ _ Hocc) as Hlen.
  destruct (Nat.lt_ge_cases k (List.length hay)) as [|Hge]; [assumption|].
  assert (Hnil : needle = [])
    by (destruct needle; simpl in *; [reflexivity | lia]).
  subst needle. exfalso. apply (Hfirst 0%nat); [|apply occurs_at_nil].
  destruct hay; simpl in *; [congruence | lia].
Qed.

(** [std::search] returns the first occurrence. *)
Lemma search_first_occurrence (needle hay : list byte) (k : nat) :
  hay <> [] -> first_occurrence needle hay k -> search hay needle = k.
Proof.
  intros Hne Hfirst.
  pose proof (first_occurrence_lt _ _ _ Hne Hfirst) as Hk.
  destruct Hfirst as [Hocc Hfirst].
  pose proof (search_first hay needle k Hk (occurs_at_prefix _ _ _ Hocc))
    as Hle.
  destruct (Nat.eq_dec (search hay needle) k) as [|Hneq]; [assumption|].
  exfalso. apply (Hfirst (search hay needle)); [lia|].
  apply prefix_occurs_at; [lia|]. apply search_found. lia.
Qed.

Lemma search_is_first_occurrence (needle hay : list byte) :
  (search hay needle < List.length hay)%nat ->
  first_occurrence needle hay (search hay needle).
Proof.
  intros Hlt. split.
  - apply prefix_occurs_at; [assumption | now apply search_found].
  - intros j Hj Hocc.
    pose proof (search_first hay needle j ltac:(lia)
                  (occurs_at_prefix _ _ _ Hocc)).
    lia.
Qed.

Lemma occurs_at_skipn (needle hay : list byte) (n j : nat) :
  (n <= List.length hay)%nat ->
  occurs_at needle (skipn n hay) j -> occurs_at needle hay (n + j).
Proof.
  intros Hn (before & after & Heq & Hlen).
  exists (firstn n hay ++ before), after. split.
  - rewrite <- app_assoc, <- Heq. symmetry. apply firstn_skipn.
  - rewrite length_app, firstn_length_le by assumption. lia.
Qed.

(** When no occurrence lies behind offset [i], the search restarted at
    [i + 1] reaches the end. *)
Lemma search_from_none (needle hay : list byte) (i : nat) :
  (i < List.length hay)%nat ->
  (forall j, occurs_at needle hay j -> (j <= i)%nat) ->
  search_from (i + 1) hay needle = List.length hay.
Proof.
  intros Hi Hlast. unfold search_from.
  rewrite search_not_occurs.
  - rewrite length_skipn. lia.
  - intros j Hocc.
    apply occurs_at_skipn in Hocc; [|lia].
    apply Hlast in Hocc. lia.
Qed.

Lemma search_single (needle hay : list byte) :
  needle <> [] ->
  (search hay needle < List.length hay)%nat ->
  search_from (search hay needle + 1) hay needle = List.length hay ->
  forall j, occurs_at needle hay j -> j = search hay needle.
Proof.
  intros Hne Hlt Hend j Hocc.
  destruct (search_is_first_occurrence _ _ Hlt) as [Hhere Hfirst].
  destruct (Nat.lt_trichotomy j (search hay needle)) as [Hj|[Hj|Hj]];
    [exfalso; now apply (Hfirst j) | assumption |].
  pose proof (search_from_second _ _ _ _ Hj Hhere Hocc Hne). lia.
Qed.

(** ** Acceptance *)

Lemma check_Ok_accepted (a : CAuxPow) (hashAuxBlock : uint256)
    (nChainId : Z) (params : Params) :
  check a hashAuxBlock nChainId params = Ok tt ->
  accepted a hashAuxBlock nChainId params.
Proof.
  rewrite check_stages. intros H.
  apply bind_Ok_inv in H as ([] & Hfields & H).
  apply check_fields_accepted in Hfields.
  apply bind_Ok_inv in H as (script & Hscript & H).
  apply bind_Ok_inv in H as (pc & Hroot & H).
  apply locate_root_accepted in Hroot.
  unfold check_size_nonce in H. cbv zeta in H.
  apply bind_Ok_inv in H as (? & Htail%error_if_Ok_inv & H).
  apply bind_Ok_inv in H as (? & Hsize%error_if_Ok_inv & H).
  apply bind_Ok_inv in H as (? & Hindex%error_if_Ok_inv & _).
  apply Z.ltb_ge in Htail.
  apply negb_false_iff, Z.eqb_eq in Hsize.
  apply negb_false_iff, Z.eqb_eq in Hindex.
  assert (Hlen : (List.length (vChainMerkleBranch a) <= 30)%nat)
    by (destruct Hfields as (_ & _ & Hlen & _); exact Hlen).
  rewrite shl_one in Hsize by lia.
  split; [assumption|].
  exists script, pc.
  split; [assumption|]. split; [assumption|]. split; [lia|].
  split; assumption.
Qed.



(** X10.  An accepted AuxPoW has a chain index inside its tree: the
    chain branch has at most 30 siblings and the chain index lies in
    [0, 2 ^ length); with an empty chain branch it is 0. *)
Theorem check_Ok_chain_index_in_tree (a : CAuxPow) (hashAuxBlock : uint256)
    (nChainId : Z) (params : Params) :
  check a hashAuxBlock nChainId params = Ok tt ->
  (List.length (vChainMerkleBranch a) <= 30)%nat
  /\ 0 <= nChainIndex a < 2 ^ Z.of_nat (List.length (vChainMerkleBranch a))
  /\ (vChainMerkleBranch a = [] -> nChainIndex a = 0).
Proof.
  intros H. apply check_Ok_accepted in H
    as ((_ & _ & Hlen & _) & script & pc & _ & _ & _ & _ & Hindex).
  assert (Hrange : 0 <= nChainIndex a
                   < 2 ^ Z.of_nat (List.length (vChainMerkleBranch a))).
  { rewrite Hindex. apply getExpectedIndex_range. lia. }
  repeat split; try lia.
  intros Hnil. rewrite Hnil in Hrange. simpl in Hrange. lia.
Qed.

(** X11.  The same AuxPoW for the same block hash is accepted for two
    chain ids only if they agree modulo the size of the chain merkle
    tree: the work committed in one slot cannot serve a chain that
    belongs in another slot. *)
Theorem check_Ok_two_chain_ids (a : CAuxPow) (hashAuxBlock : uint256)
    (id1 id2 : Z) (params1 params2 : Params) :
  check a hashAuxBlock id1 params1 = Ok tt ->
  check a hashAuxBlock id2 params2 = Ok tt ->
  id1 mod 2 ^ Z.of_nat (List.length (vChainMerkleBranch a))
  = id2 mod 2 ^ Z.of_nat (List.length (vChainMerkleBranch a)).
Proof.
  intros H1 H2.
  apply check_Ok_accepted in H1
    as ((_ & _ & Hlen & _) & s1 & pc1 & Hs1 & (Hpc1 & _) & _ & _ & Hi1).
  apply check_Ok_accepted in H2
    as (_ & s2 & pc2 & Hs2 & (Hpc2 & _) & _ & _ & Hi2).
  rewrite Hs1 in Hs2. injection Hs2 as <-.
  rewrite <- Hpc1 in Hpc2. subst pc2.
  rewrite Hi1 in Hi2.
  apply same_slot_chain_ids in Hi2; [exact Hi2 | lia].
Qed.

(** ** The remaining failure reasons, in the order of the tests *)

(** X1.  The coinbase index is the first thing [check] tests: an
    AuxPoW whose coinbase index is not 0 is rejected with the reason
    "AuxPow is not a generate", whatever its other members, the block
    hash, the chain id and the parameters are. *)
Theorem check_coinbase_index_first (a : CAuxPow) (hashAuxBlock : uint256)
    (nChainId : Z) (params : Params) :
  coinbase_nIndex a <> 0 ->
  check a hashAuxBlock nChainId params = Err "AuxPow is not a generate".
Proof.
  intros H. rewrite check_stages. unfold check_fields.
  rewrite bind_assoc. apply bind_error_if_true.
  now apply negb_true_iff, Z.eqb_neq.
Qed.

(** X2.  With the Zhash bit set and a personalization string whose
    length is not 8, an AuxPoW that passes the three tests before
    (coinbase index, chain id, branch length) is rejected with the
    reason "Aux POW Zhash personalization string size has wrong
    size."; nothing is hashed or scanned before that. *)
Theorem check_zhash_config_length (a : CAuxPow) (hashAuxBlock : uint256)
    (nChainId : Z) (params : Params) :
  coinbase_nIndex a = 0 ->
  (fStrictChainId params = true -> parent_chainId a <> nChainId) ->
  (List.length (vChainMerkleBranch a) <= 30)%nat ->
  isAuxPowZhash a = true ->
  String.length (strZhashConfig a) <> 8%nat ->
  check a hashAuxBlock nChainId params
  = Err "Aux POW Zhash personalization string size has wrong size.".
Proof.
  intros Hidx Hid Hlen Hz Hconfig. rewrite check_stages. unfold check_fields.
  rewrite bind_assoc.
  rewrite bind_error_if_false by (rewrite Hidx; reflexivity).
  rewrite bind_assoc. rewrite bind_error_if_false.
  2:{ destruct (fStrictChainId params); [|reflexivity].
      simpl. apply Z.eqb_neq. auto. }
  rewrite bind_assoc.
  rewrite bind_error_if_false by (apply Z.ltb_ge; lia).
  rewrite bind_assoc. apply bind_error_if_true.
  rewrite Hz. simpl. apply negb_true_iff, Z.eqb_neq. lia.
Qed.

(** X3.  An AuxPoW that passes the tests of its members but whose
    coinbase transaction does not fold to the merkle root of the
    selected parent header is rejected with the reason "Aux POW merkle
    root incorrect". *)
Theorem check_merkle_root_incorrect (a : CAuxPow) (hashAuxBlock : uint256)
    (nChainId : Z) (params : Params) :
  coinbase_nIndex a = 0 ->
  (fStrictChainId params = true -> parent_chainId a <> nChainId) ->
  (List.length (vChainMerkleBranch a) <= 30)%nat ->
  (isAuxPowZhash a = true -> String.length (strZhashConfig a) = 8%nat) ->
  CheckMerkleBranch (coinbase_hash a) (coinbase_vMerkleBranch a) 0
  <> parent_hashMerkleRoot a ->
  check a hashAuxBlock nChainId params = Err "Aux POW merkle root incorrect".
Proof.
  intros Hidx Hid Hlen Hz Hroot. rewrite check_stages. unfold check_fields.
  rewrite bind_assoc.
  rewrite bind_error_if_false by (rewrite Hidx; reflexivity).
  rewrite bind_assoc. rewrite bind_error_if_false.
  2:{ destruct (fStrictChainId params); [|reflexivity].
      simpl. apply Z.eqb_neq. auto. }
  rewrite bind_assoc.
  rewrite bind_error_if_false by (apply Z.ltb_ge; lia).
  rewrite bind_assoc. rewrite bind_error_if_false.
  2:{ destruct (isAuxPowZhash a); [|reflexivity].
      rewrite Hz by reflexivity. reflexivity. }
  apply bind_error_if_true. rewrite Hidx.
  apply negb_true_iff.
  destruct (bytes_eqb _ _) eqn:E; [|reflexivity].
  apply bytes_eqb_true in E. contradiction.
Qed.

(** X4.  [check] indexes input 0 of the coinbase without testing that
    there is one: for an AuxPoW that passes the tests of its members
    and whose selected coinbase transaction has no inputs, it returns
    no reason and reads [vin[0]] of an empty vector. *)
Theorem check_coinbase_without_inputs (a : CAuxPow) (hashAuxBlock : uint256)
    (nChainId : Z) (params : Params) :
  fields_accepted a nChainId params ->
  (if isAuxPowPOS a then pos_vin (tx (coinbasePOSTx a)) = []
   else vin (tx (coinbaseTx a)) = []) ->
  check a hashAuxBlock nChainId params = Undefined.
Proof.
  intros Hfields Hvin. rewrite check_stages.
  apply check_fields_accepted in Hfields. rewrite Hfields. cbn [bind].
  unfold coinbase_script.
  destruct (isAuxPowPOS a); rewrite Hvin; reflexivity.
Qed.

(** X5.  When the members pass and the reversed chain root occurs
    nowhere in the coinbase script, the reason is "Aux POW missing
    chain merkle root in parent coinbase", whether or not the script
    holds merged-mining headers, and however many. *)
Theorem check_missing_root (a : CAuxPow) (hashAuxBlock : uint256)
    (nChainId : Z) (params : Params) (script : CScript) :
  fields_accepted a nChainId params ->
  coinbase_script a = Ok script ->
  (forall i, ~ occurs_at (vchRootHash_of a hashAuxBlock) script i) ->
  check a hashAuxBlock nChainId params
  = Err "Aux POW missing chain merkle root in parent coinbase".
Proof.
  intros Hfields Hscript Hroot. rewrite check_stages.
  apply check_fields_accepted in Hfields. rewrite Hfields, Hscript.
  cbn [bind]. unfold locate_root. cbv zeta.
  rewrite ?bind_assoc. apply bind_error_if_true.
  rewrite search_not_occurs by assumption. apply Nat.eqb_refl.
Qed.

(** X6.  When the members pass and the coinbase script holds the
    merged-mining header exactly once, at offset [i], the first
    occurrence of the reversed chain root must start at offset [i + 4]:
    for any other first occurrence the reason is "Merged mining header
    is not just before chain merkle root", even if the root occurs
    again right behind the header. *)
Theorem check_header_not_before_root (a : CAuxPow) (hashAuxBlock : uint256)
    (nChainId : Z) (params : Params) (script : CScript) (i k : nat) :
  fields_accepted a nChainId params ->
  coinbase_script a = Ok script ->
  occurs_at pchMergedMiningHeader script i ->
  (forall j, occurs_at pchMergedMiningHeader script j -> j = i) ->
  first_occurrence (vchRootHash_of a hashAuxBlock) script k ->
  k <> (i + 4)%nat ->
  check a hashAuxBlock nChainId params
  = Err "Merged mining header is not just before chain merkle root".
Proof.
  intros Hfields Hscript Hi Honce Hroot Hk.
  assert (Hne : script <> []).
  { pose proof (occurs_at_length _ _ _ Hi) as Hl.
    destruct script; simpl in Hl; [lia | congruence]. }
  assert (Hhead : search script pchMergedMiningHeader = i).
  { apply search_first_occurrence; [assumption|]. split; [assumption|].
    intros j Hj Hocc. apply Honce in Hocc. lia. }
  assert (Hilt : (i < List.length script)%nat).
  { pose proof (occurs_at_length _ _ _ Hi) as Hl. simpl in Hl. lia. }
  assert (Hend : search_from (i + 1) script pchMergedMiningHeader
                 = List.length script).
  { apply search_from_none; [assumption|].
    intros j Hocc. apply Honce in Hocc. lia. }
  pose proof (first_occurrence_lt _ _ _ Hne Hroot) as Hklt.
  pose proof (search_first_occurrence _ _ _ Hne Hroot) as Hpc.
  rewrite check_stages.
  apply check_fields_accepted in Hfields. rewrite Hfields, Hscript.
  cbn [bind]. unfold locate_root. cbv zeta.
  rewrite Hhead, Hpc, Hend.
  rewrite ?bind_assoc.
  rewrite bind_error_if_false by (apply Nat.eqb_neq; lia).
  replace (Nat.eqb i (List.length script)) with false
    by (symmetry; apply Nat.eqb_neq; lia).
  cbn [negb]. rewrite ?bind_assoc.
  rewrite bind_error_if_false by (rewrite Nat.eqb_refl; reflexivity).
  rewrite ?bind_assoc. apply bind_error_if_true.
  apply negb_true_iff, Nat.eqb_neq. simpl. lia.
Qed.

(** X7.  When the members pass and the coinbase script holds no
    merged-mining header, the first occurrence of the reversed chain
    root must start at offset 20 at most: behind that, the reason is
    "Aux POW chain merkle root must start in the first 20 bytes of the
    parent coinbase". *)
Theorem check_root_too_late (a : CAuxPow) (hashAuxBlock : uint256)
    (nChainId : Z) (params : Params) (script : CScript) (k : nat) :
  fields_accepted a nChainId params ->
  coinbase_script a = Ok script ->
  (forall i, ~ occurs_at pchMergedMiningHeader script i) ->
  first_occurrence (vchRootHash_of a hashAuxBlock) script k ->
  (20 < k)%nat ->
  check a hashAuxBlock nChainId params
  = Err "Aux POW chain merkle root must start in the first 20 bytes of the parent coinbase".
Proof.
  intros Hfields Hscript Hnone Hroot Hk.
  assert (Hne : script <> []).
  { destruct Hroot as [Hocc _].
    pose proof (occurs_at_length _ _ _ Hocc) as Hl.
    destruct script; simpl in Hl; [lia | congruence]. }
  pose proof (first_occurrence_lt _ _ _ Hne Hroot) as Hklt.
  pose proof (search_first_occurrence _ _ _ Hne Hroot) as Hpc.
  rewrite check_stages.
  apply check_fields_accepted in Hfields. rewrite Hfields, Hscript.
  cbn [bind]. unfold locate_root. cbv zeta.
  rewrite (search_not_occurs pchMergedMiningHeader) by assumption.
  rewrite Hpc, Nat.eqb_refl. cbn [negb].
  rewrite ?bind_assoc.
  rewrite bind_error_if_false by (apply Nat.eqb_neq; lia).
  rewrite ?bind_assoc. apply bind_error_if_true.
  apply Z.ltb_lt. lia.
Qed.


(** ** What [check] does not read *)

(** X17.  [check] reads the coinbase proof and the parent header that
    the version bits select, and only those: replacing the stake
    coinbase of an AuxPoW without the stake bit, the plain coinbase of
    one with it, the Equihash parent of an AuxPoW without the Equihash
    bit or the default parent of one with it leaves the result
    unchanged. *)
Theorem check_reads_selected_members (a : CAuxPow) (hashAuxBlock : uint256)
    (nChainId : Z) (params : Params) (m : CMerkleTx) (p : CPOSMerkleTx)
    (d : CDefaultBlockHeader) (e : CEquihashBlockHeader) :
  (isAuxPowPOS a = false ->
   check (set_coinbasePOSTx a p) hashAuxBlock nChainId params
   = check a hashAuxBlock nChainId params)
  /\ (isAuxPowPOS a = true ->
      check (set_coinbaseTx a m) hashAuxBlock nChainId params
      = check a hashAuxBlock nChainId params)
  /\ (isAuxPowEquihash a = false ->
      check (set_equihashparentBlock a e) hashAuxBlock nChainId params
      = check a hashAuxBlock nChainId params)
  /\ (isAuxPowEquihash a = true ->
      check (set_defaultparentBlock a d) hashAuxBlock nChainId params
      = check a hashAuxBlock nChainId params).
Proof.
  unfold check, isAuxPowEquihash, isAuxPowZhash, isAuxPowPOS,
    getEquihashParentBlock, getDefaultParentBlock,
    set_coinbasePOSTx, set_coinbaseTx, set_equihashparentBlock,
    set_defaultparentBlock.
  cbn [nVersion strZhashConfig coinbaseTx coinbasePOSTx vChainMerkleBranch
       nChainIndex defaultparentBlock equihashparentBlock].
  repeat split; intros ->; reflexivity.
Qed.

(** X18.  [check] never reads the parent block hash recorded in the
    coinbase proofs ([hashBlock]): replacing it in both proofs leaves
    the result unchanged, so it is not tied to the parent header by
    this function. *)
Theorem check_ignores_hashBlock (a : CAuxPow) (hashAuxBlock : uint256)
    (nChainId : Z) (params : Params) (h1 h2 : uint256) :
  check (set_coinbaseTx
           (set_coinbasePOSTx a (set_hashBlock (coinbasePOSTx a) h2))
           (set_hashBlock (coinbaseTx a) h1))
    hashAuxBlock nChainId params
  = check a hashAuxBlock nChainId params.
Proof. reflexivity. Qed.

(** ** Further properties of the builder *)

Lemma CheckMerkleBranch_nil_0 (hash : uint256) :
  CheckMerkleBranch hash [] 0 = hash.
Proof. reflexivity. Qed.

(** X19.  [initAuxPow] stops on an assertion in one case only: the
    header has the Equihash or Zhash algorithm, the version has the
    Zhash bit, and the configured personalization string is not 8
    bytes long.  In every other case it attaches an AuxPoW. *)
Theorem initAuxPow_None_iff (header : CBlockHeader) (nAuxPowVersion : Z) :
  let pure := SetAuxpowVersion (pureHeader header) true in
  initAuxPow header nAuxPowVersion = None
  <-> (GetAlgo pure = ALGO_EQUIHASH \/ GetAlgo pure = ALGO_ZHASH)
      /\ has_flag nAuxPowVersion AUXPOW_ZHASH_FLAG = true
      /\ String.length strZhashPersonalize <> 8%nat.
Proof.
  intros pure. unfold initAuxPow, set_zhash_config. cbv zeta.
  cbn [pureHeader auxpow]. fold pure.
  destruct (Z.eqb_spec (GetAlgo pure) ALGO_EQUIHASH) as [HE|HE];
    destruct (Z.eqb_spec (GetAlgo pure) ALGO_ZHASH) as [HZ|HZ];
    destruct (has_flag nAuxPowVersion AUXPOW_EQUIHASH_FLAG);
    destruct (has_flag nAuxPowVersion AUXPOW_ZHASH_FLAG);
    destruct (has_flag nAuxPowVersion AUXPOW_STAKE_FLAG);
    destruct (Nat.eqb_spec (String.length strZhashPersonalize) 8) as [HL|HL];
    cbn [orb andb];
    (split;
     [ try discriminate; intros _; (split; [tauto | split; [reflexivity | exact HL]])
     | try reflexivity; intros (Halgo & Hflag & Hlen);
       try discriminate Hflag; try contradiction; tauto ]).
Qed.


(** X21.  The round trip needs the version bits to agree with the
    header: when [check] accepts the AuxPoW that [initAuxPow] attached
    and the hash of its coinbase is not the null hash, the Equihash bit
    is set only on an Equihash or Zhash header and the Zhash bit only
    together with the Equihash bit.  (On other versions [check] reads
    the parent header the builder did not fill in, or an empty
    personalization string.) *)
Theorem initAuxPow_check_flags_agree (header : CBlockHeader) (a : CAuxPow)
    (nAuxPowVersion : Z) (hashAuxBlock : uint256) (nChainId : Z)
    (params : Params) :
  let pure := SetAuxpowVersion (pureHeader header) true in
  initAuxPow header nAuxPowVersion
  = Some {| pureHeader := pure; auxpow := Some a |} ->
  coinbase_hash a <> uint256_null ->
  check a hashAuxBlock nChainId params = Ok tt ->
  flags_agree pure nAuxPowVersion.
Proof.
  intros pure Hinit Hnull Hcheck.
  apply check_Ok_fields in Hcheck as (_ & _ & _ & Hz & Hroot).
  revert Hinit. unfold initAuxPow, set_zhash_config, SetAuxpow. cbv zeta.
  cbn [pureHeader auxpow]. fold pure. unfold flags_agree.
  destruct (Z.eqb_spec (GetAlgo pure) ALGO_EQUIHASH) as [HE|HE];
    destruct (Z.eqb_spec (GetAlgo pure) ALGO_ZHASH) as [HZ|HZ];
    destruct (has_flag nAuxPowVersion AUXPOW_EQUIHASH_FLAG) eqn:EE;
    destruct (has_flag nAuxPowVersion AUXPOW_ZHASH_FLAG) eqn:EZ;
    cbn [orb andb];
    try (solve [split;
                [ intros Hf; try discriminate Hf; tauto
                | intros Hf; try discriminate Hf; reflexivity ]]);
    destruct (has_flag nAuxPowVersion AUXPOW_STAKE_FLAG) eqn:ES;
    try destruct (Nat.eqb (String.length strZhashPersonalize) 8);
    intros Hinit; try discriminate Hinit;
    injection Hinit as <-; exfalso;
    reduce_members_in Hz; reduce_members_in Hroot; reduce_members_in Hnull;
    rewrite ?EE, ?EZ, ?ES in Hz;
    rewrite ?EE, ?EZ, ?ES in Hroot;
    rewrite ?EE, ?EZ, ?ES in Hnull;
    reduce_members_in Hz; reduce_members_in Hroot; reduce_members_in Hnull;
    rewrite CheckMerkleBranch_nil_0 in Hroot;
    try (apply Hnull; exact Hroot);
    specialize (Hz eq_refl); discriminate Hz.
Qed.

End AuxPow.

Arguments pureHeader {CPureBlockHeader} _.
Arguments auxpow {CPureBlockHeader} _.

(** ** The theorems at the sample instances *)

#[warnings="-notation-for-abbreviation"]
Notation sample_check :=
  (check Sample.sha Sample.txhash Sample.postxhash
     Sample.EQUIHASH_FLAG Sample.ZHASH_FLAG Sample.STAKE_FLAG).

#[warnings="-notation-for-abbreviation"]
Notation sample_fields_accepted :=
  (fields_accepted Sample.sha Sample.txhash Sample.postxhash
     Sample.EQUIHASH_FLAG Sample.ZHASH_FLAG Sample.STAKE_FLAG).

#[warnings="-notation-for-abbreviation"]
Notation sample_initAuxPow :=
  (initAuxPow Sample.txhash Sample.postxhash
     Sample.EQUIHASH_FLAG Sample.ZHASH_FLAG Sample.STAKE_FLAG
     Sample.header Sample.SetAuxpowVersion Sample.GetAlgo Sample.GetHash
     Sample.ALGO_EQUIHASH Sample.ALGO_ZHASH Sample.strZhashPersonalize
     Sample.merkle_root).

Lemma getExpectedIndex_lcg_witness :
  0 <= 5 <= 30
  /\ getExpectedIndex 7 42 5 = expectedIndex_spec 7 42 5.
Proof.
  assert (H : 0 <= 5 <= 30) by lia.
  exact (conj H (proj1 (getExpectedIndex_lcg 7 42 5 H))).
Defined.

Lemma CheckMerkleBranch_fold_witness :
  Int.in_i32 5
  /\ CheckMerkleBranch Sample.sha Sample.childHash
       [uint256_null; Sample.childHash; uint256_null] 5
     = foldMerkleBranch Sample.sha Sample.childHash
         [uint256_null; Sample.childHash; uint256_null] 5.
Proof.
  assert (H : Int.in_i32 5)
    by (unfold Int.in_i32, Int.half_modulus; lia).
  exact (conj H (CheckMerkleBranch_fold Sample.sha _ _ 5 H)).
Defined.

(** Beyond 32 siblings the sign of a negative index is shifted in: the
    33rd step of the source puts the sibling first, where a fold over
    the unsigned pattern [0xFFFFFFFE] would put it last. *)
Example CheckMerkleBranch_sign_extension :
  let branch := repeat uint256_null 32 ++ [Sample.childHash] in
  CheckMerkleBranch Sample.sha uint256_null branch (-2) = Sample.childHash
  /\ foldSiblings Sample.sha uint256_null branch 0xFFFFFFFE = uint256_null.
Proof. split; vm_compute; reflexivity. Qed.

Lemma check_same_chain_id_witness :
  let a := Sample.auxpow_with Sample.minimal_script 0 [] 0 (5 * 65536) in
  fStrictChainId Sample.strict = true
  /\ parent_chainId Sample.EQUIHASH_FLAG a = 5
  /\ sample_check a Sample.childHash 5 Sample.strict
     = Err "Aux POW parent has our chain ID".
Proof.
  intros a.
  assert (H1 : fStrictChainId Sample.strict = true) by reflexivity.
  assert (H2 : parent_chainId Sample.EQUIHASH_FLAG a = 5) by reflexivity.
  exact (conj H1 (conj H2
           (proj2 (check_same_chain_id Sample.sha Sample.txhash
                     Sample.postxhash Sample.EQUIHASH_FLAG Sample.ZHASH_FLAG
                     Sample.STAKE_FLAG a Sample.childHash 5 Sample.strict
                     H1 H2)
              eq_refl))).
Defined.

(** The chain id test is not the first one: a coinbase index other than
    0 is reported before it. *)
Lemma not_generate_precedes_chain_id :
  ~ (forall (a : CAuxPow) (hashAuxBlock : uint256) (nChainId : Z)
            (params : Params),
        fStrictChainId params = true ->
        parent_chainId Sample.EQUIHASH_FLAG a = nChainId ->
        sample_check a hashAuxBlock nChainId params
        = Err "Aux POW parent has our chain ID").
Proof.
  intros H.
  specialize (H (Sample.auxpow_with Sample.minimal_script 1 [] 0 (5 * 65536))
                Sample.childHash 5 Sample.strict eq_refl eq_refl).
  rewrite check_not_generate in H by discriminate.
  discriminate H.
Qed.

Lemma check_branch_too_long_witness :
  let a := Sample.auxpow_with Sample.minimal_script 0
             (repeat uint256_null 31) 0 0 in
  (30 < List.length (vChainMerkleBranch a))%nat
  /\ sample_check a Sample.childHash 5 Sample.lenient
     = Err "Aux POW chain merkle branch too long".
Proof.
  intros a.
  assert (H1 : (30 < List.length (vChainMerkleBranch a))%nat)
    by (simpl; lia).
  exact (conj H1
           (proj2 (check_branch_too_long Sample.sha Sample.txhash
                     Sample.postxhash Sample.EQUIHASH_FLAG Sample.ZHASH_FLAG
                     Sample.STAKE_FLAG a Sample.childHash 5 Sample.lenient H1)
              eq_refl (fun H => False_ind _ (diff_false_true H)))).
Defined.

(** A branch of 31 siblings is not always reported as too long: a
    coinbase index other than 0 is reported first. *)
Lemma not_generate_precedes_branch_cap :
  ~ (forall (a : CAuxPow) (hashAuxBlock : uint256) (nChainId : Z)
            (params : Params),
        List.length (vChainMerkleBranch a) = 31%nat ->
        sample_check a hashAuxBlock nChainId params
        = Err "Aux POW chain merkle branch too long").
Proof.
  intros H.
  specialize (H (Sample.auxpow_with Sample.minimal_script 1
                   (repeat uint256_null 31) 0 0)
                Sample.childHash 5 Sample.lenient eq_refl).
  rewrite check_not_generate in H by discriminate.
  discriminate H.
Qed.

Lemma sample_fields_accepted_lenient (script : CScript)
    (chainIndex parentVersion nChainId : Z) :
  sample_fields_accepted
    (Sample.auxpow_with script 0 [] chainIndex parentVersion)
    nChainId Sample.lenient.
Proof.
  unfold fields_accepted. repeat split.
  - intros H; discriminate H.
  - simpl; lia.
  - intros H; discriminate H.
Defined.

Lemma two_header_script_first :
  occurs_at pchMergedMiningHeader Sample.two_header_script 0.
Proof.
  exists [], (rev Sample.childHash
              ++ [x01; x00; x00; x00; x00; x00; x00; x00]
              ++ [xfa; xbe; x6d; x6d]).
  split; reflexivity.
Defined.

Lemma two_header_script_second :
  occurs_at pchMergedMiningHeader Sample.two_header_script 44.
Proof.
  exists ([xfa; xbe; x6d; x6d] ++ rev Sample.childHash
          ++ [x01; x00; x00; x00; x00; x00; x00; x00]), [].
  split; reflexivity.
Defined.

Lemma check_multiple_headers_witness :
  let a := Sample.auxpow_with Sample.two_header_script 0 [] 0 0 in
  coinbase_script Sample.STAKE_FLAG a = Ok Sample.two_header_script
  /\ (0 < 44)%nat
  /\ occurs_at pchMergedMiningHeader Sample.two_header_script 0
  /\ occurs_at pchMergedMiningHeader Sample.two_header_script 44
  /\ sample_check a Sample.childHash 5 Sample.lenient
     = Err "Multiple merged mining headers in coinbase".
Proof.
  intros a.
  assert (H1 : coinbase_script Sample.STAKE_FLAG a
               = Ok Sample.two_header_script) by reflexivity.
  assert (H2 : (0 < 44)%nat) by lia.
  assert (Hroot : exists k,
             occurs_at (vchRootHash_of Sample.sha a Sample.childHash)
               Sample.two_header_script k).
  { exists 4%nat, [xfa; xbe; x6d; x6d],
      ([x01; x00; x00; x00; x00; x00; x00; x00] ++ [xfa; xbe; x6d; x6d]).
    split; reflexivity. }
  exact (conj H1 (conj H2
           (conj two_header_script_first (conj two_header_script_second
           (proj2 (check_multiple_headers Sample.sha Sample.txhash
                     Sample.postxhash Sample.EQUIHASH_FLAG Sample.ZHASH_FLAG
                     Sample.STAKE_FLAG a Sample.childHash 5 Sample.lenient
                     Sample.two_header_script 0 44 H1 H2
                     two_header_script_first two_header_script_second)
              (sample_fields_accepted_lenient Sample.two_header_script 0 0 5)
              Hroot))))).
Defined.

(** Two merged-mining headers in the coinbase script are not always
    what [check] reports: a coinbase index other than 0 is reported
    first. *)
Lemma not_generate_precedes_multiple_headers :
  ~ (forall (a : CAuxPow) (hashAuxBlock : uint256) (nChainId : Z)
            (params : Params) (script : CScript) (i j : nat),
        coinbase_script Sample.STAKE_FLAG a = Ok script ->
        (i < j)%nat ->
        occurs_at pchMergedMiningHeader script i ->
        occurs_at pchMergedMiningHeader script j ->
        sample_check a hashAuxBlock nChainId params
        = Err "Multiple merged mining headers in coinbase").
Proof.
  intros H.
  assert (H4 : (0 < 44)%nat) by lia.
  specialize (H (Sample.auxpow_with Sample.two_header_script 1 [] 0 0)
                Sample.childHash 5 Sample.lenient Sample.two_header_script
                0%nat 44%nat eq_refl H4
                two_header_script_first two_header_script_second).
  rewrite check_not_generate in H by discriminate.
  discriminate H.
Qed.

Lemma check_size_and_index_witness :
  let a := Sample.auxpow_with Sample.minimal_script 0 [] 0 0 in
  let root := vchRootHash_of Sample.sha a Sample.childHash in
  sample_fields_accepted a 5 Sample.lenient
  /\ coinbase_script Sample.STAKE_FLAG a = Ok Sample.minimal_script
  /\ root_accepted_at Sample.minimal_script root 1
  /\ (1 + List.length root + 8 <= List.length Sample.minimal_script)%nat
  /\ sample_check a Sample.childHash 5 Sample.lenient = Ok tt.
Proof.
  intros a root.
  pose proof (sample_fields_accepted_lenient Sample.minimal_script 0 0 5)
    as H1.
  assert (H2 : coinbase_script Sample.STAKE_FLAG a = Ok Sample.minimal_script)
    by reflexivity.
  assert (H3 : root_accepted_at Sample.minimal_script root 1).
  { split; [reflexivity|]. split; [simpl; lia|].
    right. split; [reflexivity | lia]. }
  assert (H4 : (1 + List.length root + 8
                <= List.length Sample.minimal_script)%nat)
    by (simpl; lia).
  exact (conj H1 (conj H2 (conj H3 (conj H4
           (proj2 (proj2
              (check_size_and_index Sample.sha Sample.txhash Sample.postxhash
                 Sample.EQUIHASH_FLAG Sample.ZHASH_FLAG Sample.STAKE_FLAG
                 a Sample.childHash 5 Sample.lenient Sample.minimal_script 1
                 H1 H2 H3 H4))
              eq_refl eq_refl))))).
Defined.

Lemma check_zhash_config_noninterference_witness :
  let a := Sample.auxpow_with Sample.minimal_script 0 [] 0 0 in
  String.length "ZcashPoW" = 8%nat
  /\ String.length "BgoldPoW" = 8%nat
  /\ sample_check (set_strZhashConfig a "ZcashPoW")
       Sample.childHash 5 Sample.lenient
     = sample_check (set_strZhashConfig a "BgoldPoW")
         Sample.childHash 5 Sample.lenient.
Proof.
  intros a.
  exact (conj eq_refl (conj eq_refl
           (check_zhash_config_noninterference
              Sample.sha Sample.txhash Sample.postxhash
              Sample.EQUIHASH_FLAG Sample.ZHASH_FLAG Sample.STAKE_FLAG
              a "ZcashPoW" "BgoldPoW" Sample.childHash 5 Sample.lenient
              eq_refl eq_refl))).
Defined.

Lemma check_rejects_negative_chain_index_witness :
  let a := Sample.auxpow_with Sample.minimal_script 0 [] (-1) 0 in
  nChainIndex a < 0
  /\ sample_check a Sample.childHash 5 Sample.lenient <> Ok tt.
Proof.
  intros a.
  assert (H : nChainIndex a < 0) by reflexivity.
  exact (conj H
           (proj1 (check_rejects_negative_chain_index
                     Sample.sha Sample.txhash Sample.postxhash
                     Sample.EQUIHASH_FLAG Sample.ZHASH_FLAG Sample.STAKE_FLAG
                     a Sample.childHash 5 Sample.lenient H))).
Defined.

Lemma initAuxPow_check_witness :
  let header := {| pureHeader := 1024; auxpow := None |} in
  let version := Sample.version_of true true true in
  let pure := Sample.SetAuxpowVersion (pureHeader header) true in
  List.length (Sample.GetHash pure) = 32%nat
  /\ (forall leaf, Sample.merkle_root [leaf] = leaf)
  /\ flags_agree Sample.EQUIHASH_FLAG Sample.ZHASH_FLAG Sample.header
       Sample.GetAlgo Sample.ALGO_EQUIHASH Sample.ALGO_ZHASH pure version
  /\ (has_flag version Sample.ZHASH_FLAG = true ->
      String.length Sample.strZhashPersonalize = 8%nat)
  /\ (forall i,
         ~ occurs_at pchMergedMiningHeader (rev (Sample.GetHash pure)) i)
  /\ rev (Sample.GetHash pure) <> repeat x28 32
  /\ fStrictChainId Sample.lenient = false
  /\ exists a,
       sample_initAuxPow header version
       = Some {| pureHeader := pure; auxpow := Some a |}
       /\ sample_check a (Sample.GetHash pure) 5 Sample.lenient = Ok tt.
Proof.
  intros header version pure.
  assert (H1 : List.length (Sample.GetHash pure) = 32%nat) by reflexivity.
  assert (H2 : forall leaf, Sample.merkle_root [leaf] = leaf)
    by (intros leaf; reflexivity).
  assert (H3 : flags_agree Sample.EQUIHASH_FLAG Sample.ZHASH_FLAG
                 Sample.header Sample.GetAlgo Sample.ALGO_EQUIHASH
                 Sample.ALGO_ZHASH pure version).
  { split; [intros _; right; reflexivity | intros _; reflexivity]. }
  assert (H4 : has_flag version Sample.ZHASH_FLAG = true ->
               String.length Sample.strZhashPersonalize = 8%nat)
    by (intros _; reflexivity).
  assert (H5 : forall i,
             ~ occurs_at pchMergedMiningHeader (rev (Sample.GetHash pure)) i).
  { apply search_end_not_occurs; [discriminate | reflexivity]. }
  assert (H6 : rev (Sample.GetHash pure) <> repeat x28 32)
    by (vm_compute; discriminate).
  assert (H7 : fStrictChainId Sample.lenient = false) by reflexivity.
  exact (conj H1 (conj H2 (conj H3 (conj H4 (conj H5 (conj H6 (conj H7
           (initAuxPow_check Sample.sha Sample.txhash Sample.postxhash
              Sample.EQUIHASH_FLAG Sample.ZHASH_FLAG Sample.STAKE_FLAG
              Sample.header Sample.SetAuxpowVersion Sample.GetAlgo
              Sample.GetHash Sample.ALGO_EQUIHASH Sample.ALGO_ZHASH
              Sample.strZhashPersonalize Sample.merkle_root
              header version 5 Sample.lenient
              H1 H2 H3 H4 H5 H6 H7)))))))).
Defined.

(** The round trip does not hold for every subset of the version bits:
    on a header of another algorithm, the version with the Zhash bit
    alone gets an AuxPoW without personalization string, which [check]
    rejects. *)
Lemma zhash_bit_alone_breaks_round_trip :
  ~ (forall (header : CBlockHeader Sample.header)
            (equihash zhash stake : bool) (nChainId : Z),
        let pure := Sample.SetAuxpowVersion (pureHeader header) true in
        exists a,
          sample_initAuxPow header (Sample.version_of equihash zhash stake)
          = Some {| pureHeader := pure; auxpow := Some a |}
          /\ sample_check a (Sample.GetHash pure) nChainId Sample.lenient
             = Ok tt).
Proof.
  intros H.
  destruct (H {| pureHeader := Sample.ALGO_SHA256D; auxpow := None |}
              false true false 5) as (a & Hinit & Hcheck).
  destruct (initAuxPow_zhash_other_algo
              Sample.sha Sample.txhash Sample.postxhash
              Sample.EQUIHASH_FLAG Sample.ZHASH_FLAG Sample.STAKE_FLAG
              Sample.header Sample.SetAuxpowVersion Sample.GetAlgo
              Sample.GetHash Sample.ALGO_EQUIHASH Sample.ALGO_ZHASH
              Sample.strZhashPersonalize Sample.merkle_root
              {| pureHeader := Sample.ALGO_SHA256D; auxpow := None |}
              (Sample.version_of false true false) 5 Sample.lenient
              eq_refl ltac:(discriminate) ltac:(discriminate) eq_refl)
    as (a' & Hinit' & Hcheck').
  rewrite Hinit in Hinit'. injection Hinit' as ->.
  rewrite Hcheck in Hcheck'. discriminate Hcheck'.
Qed.

(** The conditions on the hash bytes are needed.  When the reversed
    hash of the header holds the merged-mining header, the scan takes
    it for one and rejects the root behind the push opcode. *)
Example initAuxPow_check_header_in_hash :
  let header := {| pureHeader := 0xFABE6D6D; auxpow := None |} in
  let pure := Sample.SetAuxpowVersion (pureHeader header) true in
  exists a,
    sample_initAuxPow header (Sample.version_of false false false)
    = Some {| pureHeader := pure; auxpow := Some a |}
    /\ sample_check a (Sample.GetHash pure) 5 Sample.lenient
       = Err "Merged mining header is not just before chain merkle root".
Proof.
  intros header pure. eexists. split; [reflexivity|].
  vm_compute. reflexivity.
Qed.

(** When the hash is 32 bytes of [0x28], the root is found at the push
    opcode, one byte early, and the size is read one byte early. *)
Example check_root_at_push_opcode :
  let blockHash := repeat x28 32 in
  let script := CScript_push [] (inputData_of blockHash) in
  sample_check (Sample.auxpow_with script 0 [] 0 0) blockHash 5 Sample.lenient
  = Err "Aux POW merkle branch size does not match parent coinbase".
Proof. vm_compute. reflexivity. Qed.

(** ** The further properties at the sample instances *)

#[warnings="-notation-for-abbreviation"]
Notation sample_coinbase_hash :=
  (coinbase_hash Sample.txhash Sample.postxhash Sample.STAKE_FLAG).

#[warnings="-notation-for-abbreviation"]
Notation sample_accepted_root script a :=
  (root_accepted_at script (vchRootHash_of Sample.sha a Sample.childHash)).

Lemma check_coinbase_index_first_witness :
  let a := Sample.auxpow_with Sample.minimal_script 1 [] 0 0 in
  coinbase_nIndex Sample.STAKE_FLAG a <> 0
  /\ sample_check a Sample.childHash 5 Sample.lenient
     = Err "AuxPow is not a generate".
Proof.
  intros a.
  assert (H : coinbase_nIndex Sample.STAKE_FLAG a <> 0) by discriminate.
  exact (conj H
           (check_coinbase_index_first Sample.sha Sample.txhash Sample.postxhash
              Sample.EQUIHASH_FLAG Sample.ZHASH_FLAG Sample.STAKE_FLAG
              a Sample.childHash 5 Sample.lenient H)).
Defined.

Lemma check_zhash_config_length_witness :
  let a := set_strZhashConfig
             (set_nVersion
                (Sample.auxpow_with Sample.minimal_script 0 [] 0 0)
                Sample.ZHASH_FLAG)
             "short" in
  coinbase_nIndex Sample.STAKE_FLAG a = 0
  /\ (List.length (vChainMerkleBranch a) <= 30)%nat
  /\ isAuxPowZhash Sample.ZHASH_FLAG a = true
  /\ String.length (strZhashConfig a) <> 8%nat
  /\ sample_check a Sample.childHash 5 Sample.lenient
     = Err "Aux POW Zhash personalization string size has wrong size.".
Proof.
  intros a.
  assert (H1 : coinbase_nIndex Sample.STAKE_FLAG a = 0) by reflexivity.
  assert (H2 : fStrictChainId Sample.lenient = true ->
               parent_chainId Sample.EQUIHASH_FLAG a <> 5)
    by (intros H; discriminate H).
  assert (H3 : (List.length (vChainMerkleBranch a) <= 30)%nat)
    by (simpl; lia).
  assert (H4 : isAuxPowZhash Sample.ZHASH_FLAG a = true) by reflexivity.
  assert (H5 : String.length (strZhashConfig a) <> 8%nat) by discriminate.
  exact (conj H1 (conj H3 (conj H4 (conj H5
           (check_zhash_config_length Sample.sha Sample.txhash Sample.postxhash
              Sample.EQUIHASH_FLAG Sample.ZHASH_FLAG Sample.STAKE_FLAG
              a Sample.childHash 5 Sample.lenient H1 H2 H3 H4 H5))))).
Defined.

Lemma check_merkle_root_incorrect_witness :
  let a := set_defaultparentBlock
             (Sample.auxpow_with Sample.minimal_script 0 [] 0 0)
             {| default_nVersion := 0;
                default_hashMerkleRoot := uint256_null |} in
  coinbase_nIndex Sample.STAKE_FLAG a = 0
  /\ (List.length (vChainMerkleBranch a) <= 30)%nat
  /\ CheckMerkleBranch Sample.sha (sample_coinbase_hash a)
       (coinbase_vMerkleBranch Sample.STAKE_FLAG a) 0
     <> parent_hashMerkleRoot Sample.EQUIHASH_FLAG a
  /\ sample_check a Sample.childHash 5 Sample.lenient
     = Err "Aux POW merkle root incorrect".
Proof.
  intros a.
  assert (H1 : coinbase_nIndex Sample.STAKE_FLAG a = 0) by reflexivity.
  assert (H2 : fStrictChainId Sample.lenient = true ->
               parent_chainId Sample.EQUIHASH_FLAG a <> 5)
    by (intros H; discriminate H).
  assert (H3 : (List.length (vChainMerkleBranch a) <= 30)%nat)
    by (simpl; lia).
  assert (H4 : isAuxPowZhash Sample.ZHASH_FLAG a = true ->
               String.length (strZhashConfig a) = 8%nat)
    by (intros H; discriminate H).
  assert (H5 : CheckMerkleBranch Sample.sha (sample_coinbase_hash a)
                 (coinbase_vMerkleBranch Sample.STAKE_FLAG a) 0
               <> parent_hashMerkleRoot Sample.EQUIHASH_FLAG a)
    by (vm_compute; discriminate).
  exact (conj H1 (conj H3 (conj H5
           (check_merkle_root_incorrect Sample.sha Sample.txhash Sample.postxhash
              Sample.EQUIHASH_FLAG Sample.ZHASH_FLAG Sample.STAKE_FLAG
              a Sample.childHash 5 Sample.lenient H1 H2 H3 H4 H5)))).
Defined.

Lemma check_coinbase_without_inputs_witness :
  let a := Sample.auxpow_without_inputs in
  sample_fields_accepted a 5 Sample.lenient
  /\ vin (tx (coinbaseTx a)) = []
  /\ sample_check a Sample.childHash 5 Sample.lenient = Undefined.
Proof.
  intros a.
  assert (H1 : sample_fields_accepted a 5 Sample.lenient).
  { unfold fields_accepted. repeat split.
    - intros H; discriminate H.
    - simpl; lia.
    - intros H; discriminate H. }
  assert (H2 : vin (tx (coinbaseTx a)) = []) by reflexivity.
  exact (conj H1 (conj H2
           (check_coinbase_without_inputs Sample.sha Sample.txhash Sample.postxhash
              Sample.EQUIHASH_FLAG Sample.ZHASH_FLAG Sample.STAKE_FLAG
              a Sample.childHash 5 Sample.lenient H1 H2))).
Defined.

Lemma check_missing_root_witness :
  let script := [x01; x02] in
  let a := Sample.auxpow_with script 0 [] 0 0 in
  sample_fields_accepted a 5 Sample.lenient
  /\ coinbase_script Sample.STAKE_FLAG a = Ok script
  /\ (forall i,
         ~ occurs_at (vchRootHash_of Sample.sha a Sample.childHash) script i)
  /\ sample_check a Sample.childHash 5 Sample.lenient
     = Err "Aux POW missing chain merkle root in parent coinbase".
Proof.
  intros script a.
  pose proof (sample_fields_accepted_lenient script 0 0 5) as H1.
  assert (H2 : coinbase_script Sample.STAKE_FLAG a = Ok script)
    by reflexivity.
  assert (H3 : forall i,
             ~ occurs_at (vchRootHash_of Sample.sha a Sample.childHash)
                 script i)
    by (apply search_end_not_occurs; [discriminate | reflexivity]).
  exact (conj H1 (conj H2 (conj H3
           (check_missing_root Sample.sha Sample.txhash Sample.postxhash
              Sample.EQUIHASH_FLAG Sample.ZHASH_FLAG Sample.STAKE_FLAG
              a Sample.childHash 5 Sample.lenient script H1 H2 H3)))).
Defined.

Lemma detached_header_script_search :
  (search Sample.detached_header_script pchMergedMiningHeader
   < List.length Sample.detached_header_script)%nat
  /\ (search Sample.detached_header_script (rev Sample.childHash)
      < List.length Sample.detached_header_script)%nat.
Proof. split; vm_compute; lia. Defined.

Lemma check_header_not_before_root_witness :
  let script := Sample.detached_header_script in
  let a := Sample.auxpow_with script 0 [] 0 0 in
  let root := vchRootHash_of Sample.sha a Sample.childHash in
  sample_fields_accepted a 5 Sample.lenient
  /\ coinbase_script Sample.STAKE_FLAG a = Ok script
  /\ occurs_at pchMergedMiningHeader script 0
  /\ (forall j, occurs_at pchMergedMiningHeader script j -> j = 0%nat)
  /\ first_occurrence root script 5
  /\ 5%nat <> (0 + 4)%nat
  /\ sample_check a Sample.childHash 5 Sample.lenient
     = Err "Merged mining header is not just before chain merkle root".
Proof.
  intros script a root.
  pose proof (sample_fields_accepted_lenient script 0 0 5) as H1.
  assert (H2 : coinbase_script Sample.STAKE_FLAG a = Ok script)
    by reflexivity.
  pose proof (search_is_first_occurrence pchMergedMiningHeader script
                (proj1 detached_header_script_search)) as [H3 _].
  assert (H4 : forall j, occurs_at pchMergedMiningHeader script j
                         -> j = 0%nat).
  { apply (search_single pchMergedMiningHeader script);
      [discriminate | exact (proj1 detached_header_script_search)
      | reflexivity]. }
  pose proof (search_is_first_occurrence (rev Sample.childHash) script
                (proj2 detached_header_script_search)) as H5.
  assert (H6 : 5%nat <> (0 + 4)%nat) by discriminate.
  exact (conj H1 (conj H2 (conj H3 (conj H4 (conj H5 (conj H6
           (check_header_not_before_root Sample.sha Sample.txhash Sample.postxhash
              Sample.EQUIHASH_FLAG Sample.ZHASH_FLAG Sample.STAKE_FLAG
              a Sample.childHash 5 Sample.lenient script 0 5
              H1 H2 H3 H4 H5 H6))))))).
Defined.

Lemma late_root_script_search :
  (search Sample.late_root_script (rev Sample.childHash)
   < List.length Sample.late_root_script)%nat.
Proof. vm_compute; lia. Defined.

Lemma check_root_too_late_witness :
  let script := Sample.late_root_script in
  let a := Sample.auxpow_with script 0 [] 0 0 in
  let root := vchRootHash_of Sample.sha a Sample.childHash in
  sample_fields_accepted a 5 Sample.lenient
  /\ coinbase_script Sample.STAKE_FLAG a = Ok script
  /\ (forall i, ~ occurs_at pchMergedMiningHeader script i)
  /\ first_occurrence root script 21
  /\ (20 < 21)%nat
  /\ sample_check a Sample.childHash 5 Sample.lenient
     = Err "Aux POW chain merkle root must start in the first 20 bytes of the parent coinbase".
Proof.
  intros script a root.
  pose proof (sample_fields_accepted_lenient script 0 0 5) as H1.
  assert (H2 : coinbase_script Sample.STAKE_FLAG a = Ok script)
    by reflexivity.
  assert (H3 : forall i, ~ occurs_at pchMergedMiningHeader script i)
    by (apply search_end_not_occurs; [discriminate | reflexivity]).
  pose proof (search_is_first_occurrence (rev Sample.childHash) script
                late_root_script_search) as H4.
  assert (H5 : (20 < 21)%nat) by lia.
  exact (conj H1 (conj H2 (conj H3 (conj H4 (conj H5
           (check_root_too_late Sample.sha Sample.txhash Sample.postxhash
              Sample.EQUIHASH_FLAG Sample.ZHASH_FLAG Sample.STAKE_FLAG
              a Sample.childHash 5 Sample.lenient script 21
              H1 H2 H3 H4 H5)))))).
Defined.


Lemma check_Ok_chain_index_in_tree_witness :
  let a := Sample.height1_auxpow in
  sample_check a Sample.childHash 5 Sample.lenient = Ok tt
  /\ (List.length (vChainMerkleBranch a) <= 30)%nat
  /\ 0 <= nChainIndex a < 2 ^ Z.of_nat (List.length (vChainMerkleBranch a)).
Proof.
  intros a.
  assert (H : sample_check a Sample.childHash 5 Sample.lenient = Ok tt)
    by (vm_compute; reflexivity).
  pose proof (check_Ok_chain_index_in_tree Sample.sha Sample.txhash Sample.postxhash
              Sample.EQUIHASH_FLAG Sample.ZHASH_FLAG Sample.STAKE_FLAG
                a Sample.childHash 5 Sample.lenient H) as (H1 & H2 & _).
  exact (conj H (conj H1 H2)).
Defined.

Lemma check_Ok_two_chain_ids_witness :
  let a := Sample.height1_auxpow in
  sample_check a Sample.childHash 5 Sample.lenient = Ok tt
  /\ sample_check a Sample.childHash 7 Sample.strict = Ok tt
  /\ 5 mod 2 ^ Z.of_nat (List.length (vChainMerkleBranch a))
     = 7 mod 2 ^ Z.of_nat (List.length (vChainMerkleBranch a)).
Proof.
  intros a.
  assert (H1 : sample_check a Sample.childHash 5 Sample.lenient = Ok tt)
    by (vm_compute; reflexivity).
  assert (H2 : sample_check a Sample.childHash 7 Sample.strict = Ok tt)
    by (vm_compute; reflexivity).
  exact (conj H1 (conj H2
           (check_Ok_two_chain_ids Sample.sha Sample.txhash Sample.postxhash
              Sample.EQUIHASH_FLAG Sample.ZHASH_FLAG Sample.STAKE_FLAG
              a Sample.childHash 5 7 Sample.lenient Sample.strict H1 H2))).
Defined.

Lemma getExpectedIndex_chain_ids_clash_witness :
  0 <= 5 <= 30
  /\ (getExpectedIndex 7 3 5 = getExpectedIndex 7 35 5
      <-> 3 mod 2 ^ 5 = 35 mod 2 ^ 5).
Proof.
  assert (H : 0 <= 5 <= 30) by lia.
  exact (conj H (getExpectedIndex_chain_ids_clash 7 3 35 5 H)).
Defined.

Lemma getExpectedIndex_nonces_clash_witness :
  0 <= 5 <= 30
  /\ (getExpectedIndex 7 3 5 = getExpectedIndex 39 3 5
      <-> 7 mod 2 ^ 5 = 39 mod 2 ^ 5).
Proof.
  assert (H : 0 <= 5 <= 30) by lia.
  exact (conj H (getExpectedIndex_nonces_clash 7 39 3 5 H)).
Defined.

Lemma getExpectedIndex_any_width_witness :
  0 <= 30 <= 30
  /\ 30 <= 64
  /\ getExpectedIndex 4294967295 (-1) 30
     = expectedIndex_width 64 4294967295 (-1) 30.
Proof.
  assert (H1 : 0 <= 30 <= 30) by lia.
  assert (H2 : 30 <= 64) by lia.
  exact (conj H1 (conj H2
           (getExpectedIndex_any_width 64 4294967295 (-1) 30 H1 H2))).
Defined.

Lemma CheckMerkleBranch_app_witness :
  0 <= 2
  /\ CheckMerkleBranch Sample.sha Sample.childHash
       ([Sample.sibling] ++ [uint256_null]) 2
     = CheckMerkleBranch Sample.sha
         (CheckMerkleBranch Sample.sha Sample.childHash [Sample.sibling] 2)
         [uint256_null] (Z.shiftr 2 (Z.of_nat (List.length [Sample.sibling]))).
Proof.
  assert (H : 0 <= 2) by lia.
  exact (conj H
           (CheckMerkleBranch_app Sample.sha Sample.childHash
              [Sample.sibling] [uint256_null] 2 H)).
Defined.

Lemma CheckMerkleBranch_index_mod_witness :
  0 <= 6
  /\ CheckMerkleBranch Sample.sha Sample.childHash
       [Sample.sibling; uint256_null] 6
     = CheckMerkleBranch Sample.sha Sample.childHash
         [Sample.sibling; uint256_null]
         (6 mod 2 ^ Z.of_nat (List.length [Sample.sibling; uint256_null])).
Proof.
  assert (H : 0 <= 6) by lia.
  exact (conj H
           (CheckMerkleBranch_index_mod Sample.sha Sample.childHash
              [Sample.sibling; uint256_null] 6 H)).
Defined.


Lemma initAuxPow_check_flags_agree_witness :
  let header := {| pureHeader := 1024; auxpow := None |} in
  let version := Sample.version_of true true true in
  let pure := Sample.SetAuxpowVersion (pureHeader header) true in
  exists a,
    sample_initAuxPow header version
    = Some {| pureHeader := pure; auxpow := Some a |}
    /\ sample_coinbase_hash a <> uint256_null
    /\ sample_check a (Sample.GetHash pure) 5 Sample.lenient = Ok tt
    /\ flags_agree Sample.EQUIHASH_FLAG Sample.ZHASH_FLAG Sample.header
         Sample.GetAlgo Sample.ALGO_EQUIHASH Sample.ALGO_ZHASH pure version.
Proof.
  intros header version pure. eexists.
  refine ((fun H1 H2 H3 =>
             conj H1 (conj H2 (conj H3
               (initAuxPow_check_flags_agree
                  Sample.sha Sample.txhash Sample.postxhash
                  Sample.EQUIHASH_FLAG Sample.ZHASH_FLAG Sample.STAKE_FLAG
                  Sample.header Sample.SetAuxpowVersion Sample.GetAlgo
                  Sample.GetHash Sample.ALGO_EQUIHASH Sample.ALGO_ZHASH
                  Sample.strZhashPersonalize Sample.merkle_root
                  header _ version (Sample.GetHash pure) 5 Sample.lenient
                  H1 H2 H3)))) _ _ _).
  - reflexivity.
  - vm_compute. discriminate.
  - vm_compute. reflexivity.
Defined.
